(** * Recipe pipeline: schema validation, lookup loading, normalisation,
      step rules and orchestration

    A shallow embedding of the pure core of the recipe export pipeline
    ([src/utils/recipe_schema.py], [src/utils/lookups_loader.py],
    [src/transformers/list_normalizer.py],
    [src/validators/rule_validator.py], [src/pipeline/run_pipeline.py])
    together with the properties its specification states about it. *)

From Stdlib Require Import ZArith NArith QArith List Ascii String DecimalString
  DecimalPos DecimalZ.
From stdpp Require Import base option list sorting gmap.

Local Open Scope Z_scope.

(** ** Python strings *)

(** A Python [str] is a sequence of Unicode code points.  Comparison,
    equality and [strip] all work code point by code point, so the
    embedding keeps exactly that: a list of code points. *)
Abbreviation pystr := (list N).

Module PyStr.

(** An ASCII literal read as a [str]. *)
Definition py (s : string) : pystr :=
  map N_of_ascii (list_ascii_of_string s).

(** [str.isspace] on one code point: the characters [str.strip()]
    removes when called without argument. *)
Definition isspace (c : N) : bool :=
  ((9 <=? c) && (c <=? 13) || (28 <=? c) && (c <=? 32)
   || (c =? 133) || (c =? 160) || (c =? 5760)
   || (8192 <=? c) && (c <=? 8202)
   || (c =? 8232) || (c =? 8233) || (c =? 8239) || (c =? 8287)
   || (c =? 12288))%N.

Fixpoint lstrip (s : pystr) : pystr :=
  match s with
  | c :: s' => if isspace c then lstrip s' else s
  | [] => []
  end.

Definition rstrip (s : pystr) : pystr := rev (lstrip (rev s)).

(** [s.strip()] *)
Definition strip (s : pystr) : pystr := rstrip (lstrip s).

(** Truth value of a [str] or a [list]: the empty sequence is falsy. *)
Definition truthy {A} (s : list A) : bool :=
  match s with [] => false | _ => true end.

(** [str(n)] for an [int]. *)
Definition str_of_int (n : Z) : pystr :=
  py (NilZero.string_of_int (Z.to_int n)).

(** [a <= b] on [str]: lexicographic on code points, a proper prefix
    being smaller. *)
Fixpoint leb (a b : pystr) : bool :=
  match a, b with
  | [], _ => true
  | _ :: _, [] => false
  | x :: a', y :: b' =>
      if (x <? y)%N then true
      else if (y <? x)%N then false
      else leb a' b'
  end.

Definition le (a b : pystr) : Prop := leb a b = true.

(** [a < b] on [str]. *)
Definition lt (a b : pystr) : Prop := le a b ∧ a ≠ b.

#[global] Instance le_dec a b : Decision (le a b).
Proof. unfold le. apply _. Defined.

End PyStr.

Import PyStr.

(** [errors.append(msg)] guarded by [if cond:]: the statement contributes
    one element when the condition holds and nothing otherwise. *)
Definition when {A} (cond : bool) (msg : A) : list A :=
  if cond then [msg] else [].

(** ** src/utils/recipe_schema.py *)

Definition LANGUAGE_ES : pystr := py "ES".

(** The label is two CJK code points followed by ["(Robot Cooker)"]. *)
Definition RECIPE_TYPE_ROBOT_COOKER : pystr :=
  [0x6c64; 0x673a]%N ++ py "(Robot Cooker)".

Record RecipeMeta := {
  recipe_no : Z;
  language : pystr;
  recipe_type : pystr;
  name : pystr;
  servings : Z
}.

(** [qty] is declared [float]; no validator reads it, and the loaders
    put JSON numbers there, so it is kept as a rational. *)
Record Ingredient := {
  ing_no : Z;
  qty : Q;
  unit : pystr;
  ing_name : pystr
}.

Record Step := {
  no : Z;
  mode : pystr;
  description : option pystr;
  temperature : option Z;
  speed : option Z;
  direction : option pystr;
  minutes : option Z;
  seconds : option Z
}.

Record Recipe := {
  meta : RecipeMeta;
  ingredients : list Ingredient;
  steps : list Step
}.

Definition err_language : pystr := py "language must be " ++ LANGUAGE_ES.
Definition err_recipe_type : pystr :=
  py "recipe_type must be " ++ RECIPE_TYPE_ROBOT_COOKER.
Definition err_recipe_no : pystr := py "recipe_no must be positive".
Definition err_servings : pystr := py "servings must be positive".
Definition err_name : pystr := py "name must be non-empty".
Definition err_ingredients : pystr := py "ingredients cannot be empty".
Definition err_steps : pystr := py "steps cannot be empty".

Definition validate_recipe (recipe : Recipe) : list pystr :=
  let errors := [] in
  let errors := errors ++
    when (bool_decide (language (meta recipe) ≠ LANGUAGE_ES)) err_language in
  let errors := errors ++
    when (bool_decide (recipe_type (meta recipe) ≠ RECIPE_TYPE_ROBOT_COOKER))
         err_recipe_type in
  let errors := errors ++
    when (recipe_no (meta recipe) <=? 0) err_recipe_no in
  let errors := errors ++
    when (servings (meta recipe) <=? 0) err_servings in
  let errors := errors ++
    when (negb (truthy (strip (name (meta recipe))))) err_name in
  let errors := errors ++
    when (negb (truthy (ingredients recipe))) err_ingredients in
  let errors := errors ++
    when (negb (truthy (steps recipe))) err_steps in
  errors.

(** A [for] loop that only appends to [errors]: each iteration extends
    the accumulator with what its body reports. *)
Definition accumulate {A E} (body : A → list E) (xs : list A) : list E :=
  foldl (λ errors x, errors ++ body x) [] xs.

(** [value is not None] *)
Definition is_not_None {A} (value : option A) : bool :=
  match value with Some _ => true | None => false end.

(** ** src/validators/rule_validator.py *)

Definition MODE_DESCRIPTION : pystr := [0x63cf; 0x8ff0]%N ++ py "(Description)".
Definition MODE_WEIGH : pystr := [0x79f0; 0x91cd]%N ++ py "(Weigh)".
Definition MODE_ADAPTED : pystr :=
  [0x81ea; 0x9002; 0x5e94; 0x70f9; 0x996a]%N ++ py "(Adapted Cooking)".

Record RuleError := { message : pystr }.

Definition _has_controls (step : Step) : bool :=
  existsb id
    [ is_not_None (temperature step);
      is_not_None (speed step);
      is_not_None (direction step);
      is_not_None (minutes step);
      is_not_None (seconds step) ].

(** [step.description and step.description.strip()] as a truth value. *)
Definition description_given (step : Step) : bool :=
  match description step with
  | None => false
  | Some d => truthy d && truthy (strip d)
  end.

(** [not step.description or not step.description.strip()] *)
Definition description_missing (step : Step) : bool :=
  match description step with
  | None => true
  | Some d => negb (truthy d) || negb (truthy (strip d))
  end.

(** The four f-strings of the module: ["step {no}: <text> {mode}"]. *)
Definition rule_message (step : Step) (text : string) : RuleError :=
  {| message :=
       py "step " ++ str_of_int (no step) ++ py ": " ++ py text
          ++ py " " ++ mode step |}.

Definition description_required (step : Step) : RuleError :=
  rule_message step "description required for".
Definition controls_must_be_empty (step : Step) : RuleError :=
  rule_message step "controls must be empty for".
Definition description_should_be_empty (step : Step) : RuleError :=
  rule_message step "description should be empty for".
Definition time_required (step : Step) : RuleError :=
  rule_message step "time required for".
Definition speed_required (step : Step) : RuleError :=
  rule_message step "speed required for".
Definition unsupported_working_mode (step : Step) : RuleError :=
  rule_message step "unsupported working mode".

(** The body of the loop of [validate_steps]. *)
Definition validate_step (step : Step) : list RuleError :=
  if bool_decide (mode step = MODE_DESCRIPTION ∨ mode step = MODE_WEIGH) then
    when (description_missing step) (description_required step)
    ++ when (_has_controls step) (controls_must_be_empty step)
  else if bool_decide (mode step = MODE_ADAPTED) then
    when (description_given step) (description_should_be_empty step)
    ++ when (negb (is_not_None (minutes step))
             && negb (is_not_None (seconds step))) (time_required step)
    ++ when (negb (is_not_None (speed step))) (speed_required step)
  else
    [unsupported_working_mode step].

Definition validate_steps (steps : list Step) : list RuleError :=
  accumulate validate_step steps.

(** ** src/utils/lookups_loader.py *)

Record LookupTables := {
  units : list pystr;
  accessories : list pystr;
  working_modes : list pystr;
  categories : list pystr;
  labels : list pystr
}.

(** A row of a sheet: column header to cell value, a JSON [null] being
    [None]. *)
Abbreviation row := (gmap pystr (option pystr)).

(** The entry of one sheet in the snapshot document: a JSON object, with
    or without a ["rows"] key, or any other JSON value. *)
Inductive sheet_json :=
| SheetDict (rows : option (list row))
| SheetOther.

(** The snapshot document after [json.loads]: the ["sheets"] key may be
    missing. *)
Record snapshot_json := { sheets : option (gmap pystr sheet_json) }.

(** Iterating over [set(values)] yields every distinct element once, in
    an order the language leaves open (for [str] it depends on the hash
    seed of the process).  An instance fixes one such order. *)
Record set_iteration := {
  set_iter : list pystr → list pystr;
  set_iter_NoDup : ∀ values, NoDup (set_iter values);
  set_iter_elem : ∀ values x, x ∈ set_iter values ↔ x ∈ values
}.

(** [[value.strip() for value in values if value and value.strip()]] *)
Definition _strip_empty (values : list (option pystr)) : list pystr :=
  omap (λ value,
          match value with
          | Some v => if truthy v && truthy (strip v) then Some (strip v)
                      else None
          | None => None
          end) values.

(** [row.get(header)] *)
Definition row_get (r : row) (header : pystr) : option pystr :=
  default None (r !! header).

Definition _extract_column (rows : list row) (header : pystr) : list pystr :=
  _strip_empty (map (λ r, row_get r header) rows).

(** [sorted(xs)]: the ascending arrangement of [xs] under [<=] on [str]. *)
Definition sorted (xs : list pystr) : list pystr := merge_sort PyStr.le xs.

Definition _unique_sorted (o : set_iteration) (values : list pystr)
  : list pystr :=
  sorted (set_iter o values).

Definition load_snapshot (data : snapshot_json) : gmap pystr (list row) :=
  omap (λ sheet,
          match sheet with
          | SheetDict rows => Some (default [] rows)
          | SheetOther => None
          end) (default ∅ (sheets data)).

(** Sheet names and column headers read by [load_lookups]; the headers
    hold a line feed between their two halves. *)
Definition SHEET_UNITS : pystr :=
  [0x98df; 0x6750; 0x5355; 0x4f4d; 0x5217; 0x8868]%N
    ++ py "Unit For Ingredients".
Definition HEADER_UNITS : pystr :=
  py "*" ++ [0x5355; 0x4f4d; 0x540d; 0x79f0; 10]%N ++ py "Unit Name".
Definition SHEET_ACCESSORIES : pystr :=
  [0x914d; 0x4ef6; 0x5217; 0x8868]%N ++ py "Accessories List".
Definition HEADER_ACCESSORIES : pystr :=
  py "*" ++ [0x914d; 0x4ef6; 0x540d; 0x79f0; 10]%N ++ py "Accessory Name".
Definition SHEET_WORKING_MODES : pystr :=
  [0x81ea; 0x52a8; 0x7a0b; 0x5e8f]%N ++ py "Working Mode List".
Definition HEADER_WORKING_MODES : pystr :=
  [0x6a21; 0x5f0f; 0x540d; 0x79f0; 10]%N ++ py "Name of Working mode".
Definition SHEET_CATEGORIES : pystr :=
  [0x5206; 0x7c7b; 0x5217; 0x8868]%N ++ py "Category List".
Definition HEADER_CATEGORIES : pystr :=
  py "*" ++ [0x5206; 0x7c7b; 0x540d; 0x79f0; 10]%N ++ py "Category Name".
Definition SHEET_LABELS : pystr :=
  [0x6807; 0x7b7e; 0x5217; 0x8868]%N ++ py "Label List".
Definition HEADER_LABELS : pystr :=
  py "*" ++ [0x6807; 0x7b7e; 0x540d; 0x79f0; 10]%N ++ py "Label Name".

(** [sheets.get(name, [])] *)
Definition sheet_rows (sheets : gmap pystr (list row)) (name : pystr)
  : list row :=
  default [] (sheets !! name).

(** [load_lookups], from the document the snapshot file holds. *)
Definition load_lookups (o : set_iteration) (snapshot : snapshot_json)
  : LookupTables :=
  let sheets := load_snapshot snapshot in
  let units := _extract_column (sheet_rows sheets SHEET_UNITS) HEADER_UNITS in
  let accessories :=
    _extract_column (sheet_rows sheets SHEET_ACCESSORIES) HEADER_ACCESSORIES in
  let working_modes :=
    _extract_column (sheet_rows sheets SHEET_WORKING_MODES)
                    HEADER_WORKING_MODES in
  let categories :=
    _extract_column (sheet_rows sheets SHEET_CATEGORIES) HEADER_CATEGORIES in
  let labels :=
    _extract_column (sheet_rows sheets SHEET_LABELS) HEADER_LABELS in
  {| units := _unique_sorted o units;
     accessories := _unique_sorted o accessories;
     working_modes := _unique_sorted o working_modes;
     categories := _unique_sorted o categories;
     labels := _unique_sorted o labels |}.

(** ** src/transformers/list_normalizer.py *)

Definition ALLOWED_MODES : gset pystr :=
  {[ MODE_DESCRIPTION; MODE_WEIGH; MODE_ADAPTED ]}.

Record NormalizationError := { norm_message : pystr }.

(** [f"{field} value '{value}' is not in lookup list"] *)
Definition not_in_lookup (field : string) (value : pystr)
  : NormalizationError :=
  {| norm_message :=
       py field ++ py " value '" ++ value ++ py "' is not in lookup list" |}.

(** [allowed] is a list in two callers and a set in the third; [in] is
    the membership test of whichever container is passed. *)
Definition _validate_membership {C} `{ElemOf pystr C}
    `{∀ (x : pystr) (X : C), Decision (x ∈ X)}
    (value : pystr) (allowed : C) (field : string)
  : list NormalizationError :=
  if decide (value ∉ allowed) then [not_in_lookup field value] else [].

Definition normalize_ingredients (ingredients : list Ingredient)
    (lookups : LookupTables) : list NormalizationError :=
  accumulate
    (λ ingredient, _validate_membership (unit ingredient) (units lookups) "unit")
    ingredients.

Definition normalize_steps (steps : list Step) (lookups : LookupTables)
  : list NormalizationError :=
  let allowed_modes : gset pystr :=
    list_to_set (working_modes lookups) ∩ ALLOWED_MODES in
  accumulate
    (λ step, _validate_membership (mode step) allowed_modes "working_mode")
    steps.

Definition normalize_accessories (accessories_arg : list pystr)
    (lookups : LookupTables) : list NormalizationError :=
  accumulate
    (λ accessory,
       _validate_membership accessory (accessories lookups) "accessory")
    accessories_arg.

Definition normalize_recipe (recipe : Recipe) (lookups : LookupTables)
    (accessories_arg : list pystr) : list NormalizationError :=
  let errors := [] in
  let errors := errors ++ normalize_ingredients (ingredients recipe) lookups in
  let errors := errors ++ normalize_steps (steps recipe) lookups in
  let errors := errors ++ normalize_accessories accessories_arg lookups in
  errors.

(** ** src/pipeline/run_pipeline.py *)

(** What a run can raise.  The three validation failures are the
    [ValueError]s of [run_pipeline], whose message is a fixed prefix
    followed by the printed error list; the list itself is kept here.
    [WriterFailure] stands for whatever the writer raises on its own. *)
Inductive failure :=
| SchemaErrors (schema_errors : list pystr)
| NormalizationErrors (normalization_errors : list NormalizationError)
| RuleErrors (rule_errors : list RuleError)
| WriterFailure (detail : pystr).

(** The one effect of a run that outlives it: a call of the writer, with
    the arguments it received. *)
Inductive event :=
| WriteRecipes (recipes : list Recipe) (template_path output_path : pystr).

(** Computations that may raise and that log their writer calls. *)
Definition IO (A : Type) : Type := list event → (failure + A) * list event.

Definition ret {A} (x : A) : IO A := λ log, (inr x, log).

Definition raise {A} (e : failure) : IO A := λ log, (inl e, log).

Definition bind {A B} (m : IO A) (k : A → IO B) : IO B :=
  λ log,
    match m log with
    | (inr x, log') => k x log'
    | (inl e, log') => (inl e, log')
    end.

Notation "m ;;; k" := (bind m (λ _, k))
  (at level 100, k at level 200, right associativity).

(** [for x in xs: body], left at the first exception. *)
Fixpoint for_each {A} (xs : list A) (body : A → IO ()) : IO () :=
  match xs with
  | [] => ret ()
  | x :: xs' => body x ;;; for_each xs' body
  end.

Section Pipeline.

(** The external writer: every call is logged; whether it then returns
    or raises is up to the collaborator. *)
Variable writer_outcome : list Recipe → pystr → pystr → option pystr.

Definition write_recipes_to_template (recipes : list Recipe)
    (template_path output_path : pystr) : IO () :=
  λ log,
    let log' := log ++ [WriteRecipes recipes template_path output_path] in
    match writer_outcome recipes template_path output_path with
    | Some detail => (inl (WriterFailure detail), log')
    | None => (inr (), log')
    end.

(** The body of the loop of [run_pipeline]. *)
Definition check_recipe (lookups : LookupTables) (recipe : Recipe) : IO () :=
  let schema_errors := validate_recipe recipe in
  if truthy schema_errors then raise (SchemaErrors schema_errors) else
  let normalization_errors := normalize_recipe recipe lookups [] in
  if truthy normalization_errors
  then raise (NormalizationErrors normalization_errors) else
  let rule_errors := validate_steps (steps recipe) in
  if truthy rule_errors then raise (RuleErrors rule_errors) else
  ret ().

(** [run_pipeline], from the document the snapshot file holds. *)
Definition run_pipeline (o : set_iteration) (recipes : list Recipe)
    (snapshot : snapshot_json) (template_path output_path : pystr) : IO () :=
  let lookups := load_lookups o snapshot in
  for_each recipes (check_recipe lookups) ;;;
  write_recipes_to_template recipes template_path output_path.

End Pipeline.

(** ** src/generators/excel_writer.py *)

Module excel_writer.

(** The values a row dictionary holds: [None], an [int], a [float] or a
    [str]. *)
Inductive pyobj :=
| VNone
| VInt (n : Z)
| VFloat (q : Q)
| VStr (s : pystr).

Definition of_opt_int (o : option Z) : pyobj :=
  match o with Some n => VInt n | None => VNone end.

Definition of_opt_str (o : option pystr) : pyobj :=
  match o with Some s => VStr s | None => VNone end.

Definition DEFAULT_CATEGORY : pystr := py "Platillos Mexicanos".
Definition DEFAULT_PREP_HOURS : Z := 0.
Definition DEFAULT_PREP_MINUTES : Z := 0.
Definition DEFAULT_COOK_HOURS : Z := 0.
Definition DEFAULT_COOK_MINUTES : Z := 0.
Definition DEFAULT_REST_HOURS : Z := 0.
Definition DEFAULT_REST_MINUTES : Z := 0.
(** ["fácil"] *)
Definition DEFAULT_DIFFICULTY : pystr := py "f" ++ [0xe1]%N ++ py "cil".
Definition DEFAULT_ACCESSORY_NO : Z := 5.
Definition DEFAULT_ACCESSORY_NAME : pystr := py "Cuchilla".

(** [sep.join(items)] *)
Fixpoint join (sep : pystr) (items : list pystr) : pystr :=
  match items with
  | [] => []
  | [x] => x
  | x :: rest => x ++ sep ++ join sep rest
  end.

(** The first sentence of every overview; code point 34 is the double
    quote around the accessory name. *)
Definition accessory_sentence : pystr :=
  py "Ponemos en el vaso el accesorio " ++ [34]%N ++ DEFAULT_ACCESSORY_NAME
     ++ [34]%N ++ py ".".

(** [item for item in items if item], for items that are a [str] or
    [None]. *)
Definition truthy_items (items : list (option pystr)) : list pystr :=
  omap (λ item,
          match item with
          | Some s => if truthy s then Some s else None
          | None => None
          end) items.

(** What the loop of [build_overview] appends for a step whose
    description is absent or blank. *)
Definition controls_sentence (step : Step) : list pystr :=
  if negb (is_not_None (temperature step))
     && negb (is_not_None (speed step))
     && negb (is_not_None (minutes step))
     && negb (is_not_None (seconds step))
  then []
  else
    let parts := [] in
    let parts := parts ++
      match minutes step with
      | Some m => [str_of_int m ++ py " minutos"]
      | None => []
      end in
    let parts := parts ++
      match seconds step with
      | Some sec => when (negb (sec =? 0)) (str_of_int sec ++ py " segundos")
      | None => []
      end in
    let time_text := join (py " ") parts in
    let temp_text :=
      match temperature step with
      | Some t => Some (str_of_int t ++ [176]%N ++ py "C")
      | None => None
      end in
    let speed_text :=
      match speed step with
      | Some v => Some (py "velocidad " ++ str_of_int v)
      | None => None
      end in
    let details :=
      join (py ", ") (truthy_items [Some time_text; temp_text; speed_text]) in
    when (truthy details) (py "Cocinamos " ++ details ++ py ".").

(** The body of the loop of [build_overview]. *)
Definition overview_step (step : Step) : list pystr :=
  match description step with
  | Some d =>
      if truthy d && truthy (strip d) then [strip d]
      else controls_sentence step
  | None => controls_sentence step
  end.

(** The list [sentences] when the loop of [build_overview] is done. *)
Definition overview_sentences (steps : list Step) : list pystr :=
  [accessory_sentence] ++ accumulate overview_step steps.

Definition build_overview (steps : list Step) : pystr :=
  join (py " ") (overview_sentences steps).

Definition recipe_list_rows (recipes : list Recipe) : list (gmap pystr pyobj) :=
  accumulate
    (λ recipe,
       [list_to_map
          [ (py "recipe_no", VInt (recipe_no (meta recipe)));
            (py "language", VStr (language (meta recipe)));
            (py "recipe_type", VStr (recipe_type (meta recipe)));
            (py "name", VStr (name (meta recipe)));
            (py "category", VStr DEFAULT_CATEGORY);
            (py "servings", VInt (servings (meta recipe)));
            (py "prep_hours", VInt DEFAULT_PREP_HOURS);
            (py "prep_minutes", VInt DEFAULT_PREP_MINUTES);
            (py "cook_hours", VInt DEFAULT_COOK_HOURS);
            (py "cook_minutes", VInt DEFAULT_COOK_MINUTES);
            (py "rest_hours", VInt DEFAULT_REST_HOURS);
            (py "rest_minutes", VInt DEFAULT_REST_MINUTES);
            (py "difficulty", VStr DEFAULT_DIFFICULTY);
            (py "accessory_no", VInt DEFAULT_ACCESSORY_NO);
            (py "accessory_name", VStr DEFAULT_ACCESSORY_NAME);
            (py "overview", VStr (build_overview (steps recipe))) ]])
    recipes.

Definition ingredient_rows (recipes : list Recipe)
  : list (gmap pystr pyobj) :=
  accumulate
    (λ recipe,
       accumulate
         (λ ingredient,
            [list_to_map
               [ (py "recipe_no", VInt (recipe_no (meta recipe)));
                 (py "language", VStr (language (meta recipe)));
                 (py "recipe_type", VStr (recipe_type (meta recipe)));
                 (py "name", VStr (name (meta recipe)));
                 (py "ingredient_no", VInt (ing_no ingredient));
                 (py "qty", VFloat (qty ingredient));
                 (py "unit", VStr (unit ingredient));
                 (py "ingredient_name", VStr (ing_name ingredient)) ]])
         (ingredients recipe))
    recipes.

Definition step_row (recipe : Recipe) (step : Step) : gmap pystr pyobj :=
  list_to_map
    [ (py "recipe_no", VInt (recipe_no (meta recipe)));
      (py "language", VStr (language (meta recipe)));
      (py "recipe_type", VStr (recipe_type (meta recipe)));
      (py "name", VStr (name (meta recipe)));
      (py "step_no", VInt (no step));
      (py "mode", VStr (mode step));
      (py "description", of_opt_str (description step));
      (py "temperature", of_opt_int (temperature step));
      (py "direction", of_opt_str (direction step));
      (py "speed", of_opt_int (speed step));
      (py "minutes", of_opt_int (minutes step));
      (py "seconds", of_opt_int (seconds step)) ].

Definition step_rows (recipes : list Recipe) : list (gmap pystr pyobj) :=
  accumulate
    (λ recipe, accumulate (λ step, [step_row recipe step]) (steps recipe))
    recipes.

(** *** The XML tree of a sheet *)

(** An [xml.etree] element: tag, attributes, text, children. *)
#[warnings="-register-all"]
Inductive element :=
| Element (tag : pystr) (attrib : gmap pystr pystr) (text : option pystr)
    (children : list element).

Definition tag (e : element) : pystr := let 'Element t _ _ _ := e in t.
Definition attrib (e : element) : gmap pystr pystr :=
  let 'Element _ a _ _ := e in a.
Definition text (e : element) : option pystr :=
  let 'Element _ _ x _ := e in x.
Definition children (e : element) : list element :=
  let 'Element _ _ _ c := e in c.

Definition with_children (e : element) (c : list element) : element :=
  Element (tag e) (attrib e) (text e) c.

Definition NS_MAIN : pystr :=
  py "http://schemas.openxmlformats.org/spreadsheetml/2006/main".

(** The tag [main:local] once the prefix is resolved. *)
Definition qname (local : string) : pystr :=
  py "{" ++ NS_MAIN ++ py "}" ++ py local.

(** [e.findall("main:local", NS_MAIN)]: the children with that tag. *)
Definition findall (local : string) (e : element) : list element :=
  filter (λ c, tag c = qname local) (children e).

(** [e.find("main:local", NS_MAIN)] *)
Definition find (local : string) (e : element) : option element :=
  head (findall local e).

(** [e.find("main:a/main:b", NS_MAIN)]: the first [b] child of an [a]
    child, in document order. *)
Definition find2 (a b : string) (e : element) : option element :=
  head (findall a e ≫= findall b).

(** [l[i]] with Python's negative indices; [None] is [IndexError]. *)
Definition getitem {A} (l : list A) (i : Z) : option A :=
  if 0 <=? i then l !! Z.to_nat i
  else if - Z.of_nat (length l) <=? i
       then l !! Z.to_nat (Z.of_nat (length l) + i)
       else None.

(** Rewrites the first element of [l] that satisfies [p]; [None] when
    there is none. *)
Fixpoint update_first (p : element → bool) (f : element → element)
    (l : list element) : option (list element) :=
  match l with
  | [] => None
  | e :: l' =>
      if p e then Some (f e :: l')
      else cons e <$> update_first p f l'
  end.

Section Builtins.

(** [int(s)] on a [str], [None] standing for [ValueError], and [str(x)]
    on a [float]: two builtins the writer calls and that are taken as
    given. *)
Variable py_int : pystr → option Z.
Variable float_str : Q → pystr.

(** [str(value)] for a value that is not [None]. *)
Definition str_of_obj (value : pyobj) : pystr :=
  match value with
  | VNone => py "None"
  | VInt n => str_of_int n
  | VFloat q => float_str q
  | VStr s => s
  end.

Definition cell_value (cell : element) (shared : list pystr)
  : option pystr :=
  if bool_decide (attrib cell !! py "t" = Some (py "s")) then
    match find "v" cell with
    | None => None
    | Some value =>
        match text value with
        | None => None
        | Some txt =>
            match py_int txt with
            | Some i => getitem shared i
            | None => None
            end
        end
    end
  else
    match find2 "is" "t" cell with
    | Some (Element _ _ (Some txt) _) => Some txt
    | _ =>
        match find "v" cell with
        | None => None
        | Some value => text value
        end
    end.

(** The row is kept by [clear_data_rows]: its [r] attribute is ["1"]. *)
Definition is_header_row (row : element) : Prop :=
  attrib row !! py "r" = Some (py "1").

(** [clear_data_rows] changes the sheet in place; the sheet afterwards
    is returned here. *)
Definition clear_data_rows (sheet : element) : element :=
  match
    update_first (λ c, bool_decide (tag c = qname "sheetData"))
      (λ sheet_data,
         with_children sheet_data
           (filter (λ c, ¬ (tag c = qname "row" ∧ ¬ is_header_row c))
                   (children sheet_data)))
      (children sheet)
  with
  | Some children' => with_children sheet children'
  | None => sheet
  end.

Definition make_cell (col : pystr) (row_num : Z) (value : pyobj) : element :=
  let r : gmap pystr pystr := {[ py "r" := col ++ str_of_int row_num ]} in
  match value with
  | VNone => Element (qname "c") r None []
  | VInt _ | VFloat _ =>
      Element (qname "c") r None
        [Element (qname "v") ∅ (Some (str_of_obj value)) []]
  | VStr _ =>
      Element (qname "c") (<[ py "t" := py "inlineStr" ]> r) None
        [Element (qname "is") ∅ None
           [Element (qname "t") ∅ (Some (str_of_obj value)) []]]
  end.

(** The cells of one appended row: for every header of [headers], in
    order, that the template has a column for and whose field is not
    [None]. *)
Definition row_cells (header_to_col : gmap pystr pystr)
    (headers : list (pystr * pystr)) (row_num : Z)
    (row_data : gmap pystr pyobj) : list element :=
  accumulate
    (λ '(header, key),
       match header_to_col !! header with
       | None => []
       | Some col =>
           if negb (truthy col) then []
           else match default VNone (row_data !! key) with
                | VNone => []
                | value => [make_cell col row_num value]
                end
       end)
    headers.

(** The [row] elements [append_rows] builds, numbered from 2. *)
Definition new_rows (header_to_col : gmap pystr pystr)
    (rows : list (gmap pystr pyobj)) (headers : list (pystr * pystr))
  : list element :=
  imap (λ offset row_data,
          let row_num := 2 + Z.of_nat offset in
          Element (qname "row") {[ py "r" := str_of_int row_num ]} None
            (row_cells header_to_col headers row_num row_data))
       rows.

(** [append_rows] changes the sheet in place; the sheet afterwards is
    returned here.  [headers] is the dictionary of the module, as the
    list of its items in their order. *)
Definition append_rows (sheet : element) (header_to_col : gmap pystr pystr)
    (rows : list (gmap pystr pyobj)) (headers : list (pystr * pystr))
  : element :=
  let added := new_rows header_to_col rows headers in
  match
    update_first (λ c, bool_decide (tag c = qname "sheetData"))
      (λ sheet_data, with_children sheet_data (children sheet_data ++ added))
      (children sheet)
  with
  | Some children' => with_children sheet children'
  | None =>
      with_children sheet
        (children sheet ++ [Element (qname "sheetData") ∅ None added])
  end.

End Builtins.

(** The rows of the first [sheetData] of a sheet, the one the writer
    works on. *)
Definition data_rows (sheet : element) : list element :=
  match find "sheetData" sheet with
  | Some sheet_data => findall "row" sheet_data
  | None => []
  end.

End excel_writer.

(** ** scripts/schema_snapshot.py *)

Module schema_snapshot.

(** [col_index], the function [col_sorted] sorts the column letters by. *)
Definition col_index (col : pystr) : Z :=
  foldl (λ index ch, index * 26 + (Z.of_N ch - 64)) 0 col.

(** The reader of the snapshot tool; it differs from the writer's. *)
Definition cell_value (py_int : pystr → option Z)
    (cell : excel_writer.element) (shared : list pystr) : option pystr :=
  match excel_writer.find "v" cell with
  | None => None
  | Some value =>
      let raw := default [] (excel_writer.text value) in
      if bool_decide (excel_writer.attrib cell !! py "t" = Some (py "s")) then
        match py_int raw with
        | Some i => excel_writer.getitem shared i
        | None => None
        end
      else Some raw
  end.

(** A column name made of the letters A to Z. *)
Definition column_name (col : pystr) : Prop :=
  Forall (λ ch, (65 ≤ ch ≤ 90)%N) col.

End schema_snapshot.

(** A recipe clears the three stages against [lookups]. *)
Definition passes (lookups : LookupTables) (recipe : Recipe) : Prop :=
  validate_recipe recipe = []
  ∧ normalize_recipe recipe lookups [] = []
  ∧ validate_steps (steps recipe) = [].

(** ** Concrete data used by the examples *)

(** Two iteration orders of a set: first occurrence first, and the
    reverse of it. *)
Program Definition first_seen : set_iteration :=
  {| set_iter := remove_dups |}.
Next Obligation. intros. apply NoDup_remove_dups. Qed.
Next Obligation. intros. apply elem_of_remove_dups. Qed.

Program Definition last_seen : set_iteration :=
  {| set_iter := λ values, reverse (remove_dups values) |}.
Next Obligation.
  intros. cbn. rewrite reverse_Permutation. apply NoDup_remove_dups.
Qed.
Next Obligation.
  intros. cbn. rewrite elem_of_reverse. apply elem_of_remove_dups.
Qed.

Definition mk_step (n : Z) (m : pystr) : Step :=
  {| no := n; mode := m; description := None; temperature := None;
     speed := None; direction := None; minutes := None; seconds := None |}.

Definition good_meta : RecipeMeta :=
  {| recipe_no := 1; language := LANGUAGE_ES;
     recipe_type := RECIPE_TYPE_ROBOT_COOKER;
     name := py "Receta de prueba"; servings := 2 |}.

Definition onion (u : string) : Ingredient :=
  {| ing_no := 1; qty := 200 # 1; unit := py u; ing_name := py "cebolla" |}.

Definition chop : Step :=
  {| no := 1; mode := MODE_DESCRIPTION;
     description := Some (py "Pique la cebolla."); temperature := None;
     speed := None; direction := None; minutes := None; seconds := None |}.

Definition cook : Step :=
  {| no := 2; mode := MODE_ADAPTED; description := None;
     temperature := Some 120; speed := Some 2; direction := None;
     minutes := Some 5; seconds := Some 0 |}.

Definition good_recipe : Recipe :=
  {| meta := good_meta; ingredients := [onion "g"]; steps := [chop; cook] |}.

(** Valid but for the unit of its only ingredient. *)
Definition bad_unit_recipe : Recipe :=
  {| meta := good_meta; ingredients := [onion "INVALID"];
     steps := [chop; cook] |}.

(** The negative scenario of the schema validator. *)
Definition bad_recipe : Recipe :=
  {| meta := {| recipe_no := 0; language := py "EN"; recipe_type := py "";
                name := py " "; servings := 0 |};
     ingredients := []; steps := [] |}.

(** A description step with a blank description and all five controls
    set. *)
Definition blank_hot_step : Step :=
  {| no := 1; mode := MODE_DESCRIPTION; description := Some (py "  ");
     temperature := Some 100; speed := Some 1; direction := Some (py "CW");
     minutes := Some 1; seconds := Some 30 |}.

(** An adapted-cooking step with temperature and direction set and only
    seconds for time. *)
Definition stir_step : Step :=
  {| no := 3; mode := MODE_ADAPTED; description := Some (py " ");
     temperature := Some 90; speed := Some 1; direction := Some (py "CCW");
     minutes := None; seconds := Some 45 |}.

(** An adapted-cooking step that breaks all three rules of its mode. *)
Definition chatty_step : Step :=
  {| no := 4; mode := MODE_ADAPTED; description := Some (py "Remueva.");
     temperature := Some 60; speed := None; direction := None;
     minutes := None; seconds := None |}.

(** A step whose only control is [seconds = 0]. *)
Definition zero_seconds_step : Step :=
  {| no := 5; mode := MODE_ADAPTED; description := Some (py " ");
     temperature := None; speed := None; direction := Some (py "R");
     minutes := None; seconds := Some 0 |}.

Definition sample_lookups (cats labs : list pystr) : LookupTables :=
  {| units := [py "g"]; accessories := [py "whisk"];
     working_modes := [MODE_DESCRIPTION; MODE_WEIGH];
     categories := cats; labels := labs |}.

Definition cell (header value : pystr) : row := {[ header := Some value ]}.

(** A snapshot with units [" g "], ["ml"], ["g"], a blank and a null
    cell, and the three supported working modes. *)
Definition sample_snapshot : snapshot_json :=
  {| sheets := Some (
       <[ SHEET_UNITS :=
            SheetDict (Some [ cell HEADER_UNITS (py " g ");
                              cell HEADER_UNITS (py "ml");
                              cell HEADER_UNITS (py "g");
                              cell HEADER_UNITS (py "   ");
                              {[ HEADER_UNITS := None ]};
                              cell HEADER_LABELS (py "x") ]) ]>
       (<[ SHEET_WORKING_MODES :=
            SheetDict (Some [ cell HEADER_WORKING_MODES MODE_WEIGH;
                              cell HEADER_WORKING_MODES MODE_DESCRIPTION;
                              cell HEADER_WORKING_MODES MODE_ADAPTED ]) ]>
       (<[ SHEET_LABELS := SheetOther ]>
       (<[ SHEET_CATEGORIES := SheetDict None ]> ∅)))) |}.

Definition no_writer_failure : list Recipe → pystr → pystr → option pystr :=
  λ _ _ _, None.

(** Rows of a unit sheet, and the same rows in another order with one
    of them repeated. *)
Definition unit_rows : list row :=
  [cell HEADER_UNITS (py "g"); cell HEADER_UNITS (py "ml")].

Definition unit_rows_shuffled : list row :=
  [cell HEADER_UNITS (py "ml"); cell HEADER_UNITS (py "g");
   cell HEADER_UNITS (py "ml")].

(** [chop] and [cook] with other numbers, modes and directions. *)
Definition chop_renumbered : Step :=
  {| no := 7; mode := MODE_WEIGH;
     description := Some (py "Pique la cebolla."); temperature := None;
     speed := None; direction := Some (py "L"); minutes := None;
     seconds := None |}.

Definition cook_renumbered : Step :=
  {| no := 8; mode := py "other"; description := None;
     temperature := Some 120; speed := Some 2; direction := Some (py "R");
     minutes := Some 5; seconds := Some 0 |}.

(** ** Vocabulary of the specification *)

(** A description that is absent, empty or all whitespace. *)
Definition blank (d : option pystr) : Prop :=
  match d with
  | None => True
  | Some v => strip v = []
  end.

(** At least one of the five machine controls of a step is set. *)
Definition any_control_set (s : Step) : Prop :=
  temperature s ≠ None ∨ speed s ≠ None ∨ direction s ≠ None
  ∨ minutes s ≠ None ∨ seconds s ≠ None.

(** The three mode labels the pipeline supports. *)
Definition supported_mode (m : pystr) : Prop :=
  m = MODE_DESCRIPTION ∨ m = MODE_WEIGH ∨ m = MODE_ADAPTED.

#[global] Instance supported_mode_dec m : Decision (supported_mode m).
Proof. unfold supported_mode. apply _. Defined.

(** The snapshot has, in the sheet called [sheet], a row whose cell under
    [header] holds the string [value]. *)
Definition cell_in (snapshot : snapshot_json) (sheet header value : pystr)
  : Prop :=
  ∃ sh rows r,
    sheets snapshot = Some sh
    ∧ sh !! sheet = Some (SheetDict (Some rows))
    ∧ r ∈ rows
    ∧ r !! header = Some (Some value).

(** The snapshot has no sheet called [sheet]. *)
Definition sheet_absent (snapshot : snapshot_json) (sheet : pystr) : Prop :=
  ∀ sh, sheets snapshot = Some sh → sh !! sheet = None.

(** No row of the sheet called [sheet] has a column [header]. *)
Definition column_absent (snapshot : snapshot_json) (sheet header : pystr)
  : Prop :=
  ∀ sh rows r,
    sheets snapshot = Some sh →
    sh !! sheet = Some (SheetDict (Some rows)) →
    r ∈ rows → r !! header = None.

(** What the specification asks of the lookup list [l] read from column
    [header] of sheet [sheet]: it holds exactly the trimmed cell values
    that are not blank, each once, in strictly ascending order, every
    element being trimmed and non-empty; and it is empty when the sheet
    or the column is absent. *)
Definition lookup_list_ok (snapshot : snapshot_json) (sheet header : pystr)
    (l : list pystr) : Prop :=
  (∀ x, x ∈ l ↔ ∃ value, cell_in snapshot sheet header value
                          ∧ strip value ≠ [] ∧ x = strip value)
  ∧ NoDup l
  ∧ StronglySorted PyStr.lt l
  ∧ (∀ x, x ∈ l → strip x = x ∧ x ≠ [])
  ∧ (sheet_absent snapshot sheet → l = [])
  ∧ (column_absent snapshot sheet header → l = []).

(** The failure [e] is the one recipe [r] makes the run raise: the first
    of its three stages, in the order schema, normalisation, rules, that
    reports errors, with the errors of that stage. *)
Definition recipe_failure (lookups : LookupTables) (r : Recipe) (e : failure)
  : Prop :=
  (validate_recipe r ≠ [] ∧ e = SchemaErrors (validate_recipe r))
  ∨ (validate_recipe r = [] ∧ normalize_recipe r lookups [] ≠ []
     ∧ e = NormalizationErrors (normalize_recipe r lookups []))
  ∨ (validate_recipe r = [] ∧ normalize_recipe r lookups [] = []
     ∧ validate_steps (steps r) ≠ []
     ∧ e = RuleErrors (validate_steps (steps r))).

#[global] Instance passes_dec lookups r : Decision (passes lookups r).
Proof. unfold passes. apply _. Defined.

#[global] Instance blank_dec d : Decision (blank d).
Proof. destruct d; apply _. Defined.

#[global] Instance any_control_set_dec s : Decision (any_control_set s).
Proof. unfold any_control_set. apply _. Defined.

(** The seven messages of the schema validator, in the order of its
    checks. *)
Definition all_schema_errors : list pystr :=
  [err_language; err_recipe_type; err_recipe_no; err_servings; err_name;
   err_ingredients; err_steps].

(** What [validate_recipe] accepts. *)
Definition schema_ok (r : Recipe) : Prop :=
  language (meta r) = LANGUAGE_ES
  ∧ recipe_type (meta r) = RECIPE_TYPE_ROBOT_COOKER
  ∧ 0 < recipe_no (meta r)
  ∧ 0 < servings (meta r)
  ∧ strip (name (meta r)) ≠ []
  ∧ ingredients r ≠ []
  ∧ steps r ≠ [].

(** What [validate_steps] accepts of one step: a described step without
    controls, or an automatic step without description that has a speed
    and a time. *)
Definition step_ok (s : Step) : Prop :=
  ((mode s = MODE_DESCRIPTION ∨ mode s = MODE_WEIGH)
   ∧ ¬ blank (description s) ∧ ¬ any_control_set s)
  ∨ (mode s = MODE_ADAPTED ∧ blank (description s)
     ∧ (minutes s ≠ None ∨ seconds s ≠ None) ∧ speed s ≠ None).

(** A snapshot whose sheets are [sh]. *)
Definition snapshot_of (sh : gmap pystr sheet_json) : snapshot_json :=
  {| sheets := Some sh |}.

(** The five sheets [load_lookups] reads. *)
Definition lookup_sheets : list pystr :=
  [SHEET_UNITS; SHEET_ACCESSORIES; SHEET_WORKING_MODES; SHEET_CATEGORIES;
   SHEET_LABELS].

(** Two steps agree on the fields [build_overview] reads. *)
Definition same_overview_fields (s1 s2 : Step) : Prop :=
  description s1 = description s2 ∧ temperature s1 = temperature s2
  ∧ speed s1 = speed s2 ∧ minutes s1 = minutes s2
  ∧ seconds s1 = seconds s2.

(** * Properties *)

(** ** Accumulating loops *)

Lemma accumulate_flat {A E} (body : A → list E) (xs : list A) :
  accumulate body xs = xs ≫= body.
Proof.
  unfold accumulate.
  assert (G : ∀ acc, foldl (λ errors x, errors ++ body x) acc xs
                     = acc ++ (xs ≫= body)).
  { induction xs as [|x xs IH]; intros acc; cbn.
    - by rewrite app_nil_r.
    - by rewrite IH, app_assoc. }
  apply (G []).
Qed.

Lemma accumulate_nil {A E} (body : A → list E) : accumulate body [] = [].
Proof. reflexivity. Qed.

Lemma accumulate_cons {A E} (body : A → list E) x xs :
  accumulate body (x :: xs) = body x ++ accumulate body xs.
Proof. by rewrite !accumulate_flat. Qed.

Lemma accumulate_app {A E} (body : A → list E) xs ys :
  accumulate body (xs ++ ys) = accumulate body xs ++ accumulate body ys.
Proof. rewrite !accumulate_flat. apply bind_app. Qed.

Lemma accumulate_singleton {A E} (body : A → list E) x :
  accumulate body [x] = body x.
Proof. rewrite accumulate_cons, accumulate_nil. apply app_nil_r. Qed.

Lemma accumulate_filter {A E} (P : A → Prop) `{∀ x, Decision (P x)}
    (f : A → E) (xs : list A) :
  accumulate (λ x, if decide (P x) then [f x] else []) xs
  = f <$> filter P xs.
Proof.
  induction xs as [|x xs IH]; [done|].
  rewrite accumulate_cons, IH, filter_cons. by destruct (decide (P x)).
Qed.

Lemma truthy_false {A} (l : list A) : truthy l = false ↔ l = [].
Proof. by destruct l. Qed.

Lemma truthy_true {A} (l : list A) : truthy l = true ↔ l ≠ [].
Proof. by destruct l. Qed.

(** ** Schema validation *)

(** C2.  [validate_recipe] runs its seven checks one after the other and
    keeps every violation: its result is the concatenation of what each
    check reports on its own.  On the recipe with meta
    {recipe_no=0, language="EN", recipe_type="", name=" ", servings=0} and
    no ingredients and no steps it returns exactly the seven errors
    (language, recipe_type, recipe_no, servings, name, ingredients, steps),
    all different. *)
Theorem validate_recipe_accumulates :
  (∀ recipe,
     validate_recipe recipe
     = (if decide (language (meta recipe) = LANGUAGE_ES)
        then [] else [err_language])
       ++ (if decide (recipe_type (meta recipe) = RECIPE_TYPE_ROBOT_COOKER)
           then [] else [err_recipe_type])
       ++ (if decide (0 < recipe_no (meta recipe))
           then [] else [err_recipe_no])
       ++ (if decide (0 < servings (meta recipe))
           then [] else [err_servings])
       ++ (if decide (strip (name (meta recipe)) = [])
           then [err_name] else [])
       ++ (if decide (ingredients recipe = [])
           then [err_ingredients] else [])
       ++ (if decide (steps recipe = []) then [err_steps] else []))
  ∧ validate_recipe bad_recipe
    = [err_language; err_recipe_type; err_recipe_no; err_servings;
       err_name; err_ingredients; err_steps]
  ∧ NoDup [err_language; err_recipe_type; err_recipe_no; err_servings;
           err_name; err_ingredients; err_steps]
  ∧ length (validate_recipe bad_recipe) = 7%nat.
Proof.
  split; [|split; [|split]].
  - intros recipe. unfold validate_recipe, when. cbn [app].
    rewrite !bool_decide_decide, <- !app_assoc.
    repeat f_equal.
    + destruct (decide (language (meta recipe) = LANGUAGE_ES)) as [E|E].
      * by rewrite decide_False by (intros ?; done).
      * by rewrite decide_True.
    + destruct (decide (recipe_type (meta recipe) = RECIPE_TYPE_ROBOT_COOKER))
        as [E|E].
      * by rewrite decide_False by (intros ?; done).
      * by rewrite decide_True.
    + destruct (Z.leb_spec (recipe_no (meta recipe)) 0);
        case_decide; (done || lia).
    + destruct (Z.leb_spec (servings (meta recipe)) 0);
        case_decide; (done || lia).
    + destruct (strip (name (meta recipe))); by case_decide.
    + destruct (ingredients recipe); by case_decide.
    + destruct (steps recipe); by case_decide.
  - reflexivity.
  - refine (bool_decide_unpack (NoDup _) _). vm_compute. exact I.
  - reflexivity.
Qed.

(** ** Step rules *)

Lemma modes_distinct :
  MODE_DESCRIPTION ≠ MODE_WEIGH ∧ MODE_DESCRIPTION ≠ MODE_ADAPTED
  ∧ MODE_WEIGH ≠ MODE_ADAPTED.
Proof.
  refine (bool_decide_unpack (_ ∧ _ ∧ _) _). vm_compute. exact I.
Qed.

Lemma validate_steps_cons step steps :
  validate_steps (step :: steps) = validate_step step ++ validate_steps steps.
Proof. apply accumulate_cons. Qed.

Lemma validate_steps_app steps1 steps2 :
  validate_steps (steps1 ++ steps2)
  = validate_steps steps1 ++ validate_steps steps2.
Proof. apply accumulate_app. Qed.

Lemma validate_steps_singleton step :
  validate_steps [step] = validate_step step.
Proof. apply accumulate_singleton. Qed.

Lemma description_missing_blank step :
  description_missing step = true ↔ blank (description step).
Proof.
  unfold description_missing, blank.
  destruct (description step) as [d|]; [|done].
  rewrite orb_true_iff, !negb_true_iff, !truthy_false.
  split; [|by right]. by intros [->| ->].
Qed.

Lemma description_given_blank step :
  description_given step = false ↔ blank (description step).
Proof.
  unfold description_given, blank.
  destruct (description step) as [d|]; [|done].
  rewrite andb_false_iff, !truthy_false.
  split; [|by right]. by intros [->| ->].
Qed.

Lemma _has_controls_spec step :
  _has_controls step = true ↔ any_control_set step.
Proof.
  unfold _has_controls, any_control_set.
  destruct (temperature step), (speed step), (direction step),
    (minutes step), (seconds step); cbn; intuition congruence.
Qed.

Lemma rule_message_text_inj step (t1 t2 : string) :
  rule_message step t1 = rule_message step t2 →
  py t1 ++ py " " ++ mode step = py t2 ++ py " " ++ mode step.
Proof.
  intros E. apply (f_equal message) in E.
  unfold rule_message, message in E.
  by apply app_inv_head, app_inv_head, app_inv_head in E.
Qed.

(** C3.  A step in description or weigh mode gets one "description
    required" error exactly when its description is absent or blank, and
    one combined "controls must be empty" error exactly when at least one
    of temperature, speed, direction, minutes, seconds is set, however
    many of the five are; the two errors are different, and nothing else
    is reported. *)
Theorem description_weigh_step_errors (s : Step) :
  mode s = MODE_DESCRIPTION ∨ mode s = MODE_WEIGH →
  (blank (description s) → any_control_set s →
     validate_steps [s] = [description_required s; controls_must_be_empty s])
  ∧ (blank (description s) → ¬ any_control_set s →
       validate_steps [s] = [description_required s])
  ∧ (¬ blank (description s) → any_control_set s →
       validate_steps [s] = [controls_must_be_empty s])
  ∧ (¬ blank (description s) → ¬ any_control_set s →
       validate_steps [s] = [])
  ∧ description_required s ≠ controls_must_be_empty s.
Proof.
  intros Hmode. rewrite validate_steps_singleton. unfold validate_step.
  rewrite bool_decide_eq_true_2 by done.
  rewrite <- description_missing_blank, <- _has_controls_spec.
  destruct (description_missing s), (_has_controls s); cbn;
    repeat split; try done.
  all: intros E; apply rule_message_text_inj in E; discriminate E.
Qed.

(** C4.  A step in adapted-cooking mode with an absent or blank
    description, a speed, and minutes or seconds (or both) has no rule
    error, whatever its temperature and direction are. *)
Theorem adapted_cooking_step_ok (s : Step) :
  mode s = MODE_ADAPTED →
  blank (description s) →
  speed s ≠ None →
  minutes s ≠ None ∨ seconds s ≠ None →
  validate_steps [s] = [].
Proof.
  intros Hmode Hblank Hspeed Htime.
  destruct modes_distinct as (_ & Hda & Hwa).
  rewrite validate_steps_singleton. unfold validate_step.
  rewrite bool_decide_eq_false_2 by (rewrite Hmode; intuition congruence).
  rewrite bool_decide_eq_true_2 by done.
  apply description_given_blank in Hblank. rewrite Hblank.
  destruct (speed s); [|done].
  destruct (minutes s), (seconds s); try done. by destruct Htime.
Qed.

(** C9.  A step whose mode is none of the three supported labels yields
    exactly one error, the "unsupported working mode" one, and it does so
    wherever it stands in the list: the errors of the steps before it and
    after it are those they have on their own. *)
Theorem unsupported_mode_step_error (before after : list Step) (s : Step) :
  ¬ supported_mode (mode s) →
  validate_steps [s] = [unsupported_working_mode s]
  ∧ validate_steps (before ++ s :: after)
    = validate_steps before ++ unsupported_working_mode s
        :: validate_steps after.
Proof.
  intros Hmode. unfold supported_mode in Hmode.
  assert (E : validate_step s = [unsupported_working_mode s]).
  { unfold validate_step.
    rewrite bool_decide_eq_false_2 by tauto.
    by rewrite bool_decide_eq_false_2 by tauto. }
  split.
  - by rewrite validate_steps_singleton.
  - by rewrite validate_steps_app, validate_steps_cons, E.
Qed.

(** ** Normalisation against the lookup tables *)

Lemma elem_of_ALLOWED_MODES m : m ∈ ALLOWED_MODES ↔ supported_mode m.
Proof.
  unfold ALLOWED_MODES, supported_mode.
  rewrite !elem_of_union, !elem_of_singleton. tauto.
Qed.

Lemma normalize_ingredients_filter ings lookups :
  normalize_ingredients ings lookups
  = (λ i, not_in_lookup "unit" (unit i))
      <$> filter (λ i, unit i ∉ units lookups) ings.
Proof.
  unfold normalize_ingredients, _validate_membership.
  apply (accumulate_filter (λ i, unit i ∉ units lookups)).
Qed.

Lemma normalize_steps_filter stps lookups :
  normalize_steps stps lookups
  = (λ s, not_in_lookup "working_mode" (mode s))
      <$> filter (λ s, ¬ (mode s ∈ working_modes lookups
                          ∧ supported_mode (mode s))) stps.
Proof.
  unfold normalize_steps, _validate_membership.
  rewrite (accumulate_filter
             (λ s, mode s ∉ (list_to_set (working_modes lookups)
                               ∩ ALLOWED_MODES : gset pystr))).
  f_equal. apply list_filter_iff. intros s.
  by rewrite elem_of_intersection, elem_of_list_to_set,
    elem_of_ALLOWED_MODES.
Qed.

Lemma normalize_accessories_filter acc lookups :
  normalize_accessories acc lookups
  = not_in_lookup "accessory" <$> filter (λ a, a ∉ accessories lookups) acc.
Proof.
  unfold normalize_accessories, _validate_membership.
  apply (accumulate_filter (λ a, a ∉ accessories lookups)).
Qed.

(** C5.  [normalize_recipe] reports one error per ingredient whose unit
    is not an element of [lookups.units], then one per step whose mode is
    not both an element of [lookups.working_modes] and one of the three
    supported labels, then one per accessory that is not listed, in that
    order and with nothing left out; elements are compared by equality of
    strings.  The error of an ingredient spells out its unit, the error
    of a step its mode. *)
Theorem normalize_recipe_membership (recipe : Recipe) (lookups : LookupTables)
    (accessories_arg : list pystr) :
  normalize_recipe recipe lookups accessories_arg
  = ((λ i, not_in_lookup "unit" (unit i))
       <$> filter (λ i, unit i ∉ units lookups) (ingredients recipe))
    ++ ((λ s, not_in_lookup "working_mode" (mode s))
          <$> filter (λ s, ¬ (mode s ∈ working_modes lookups
                              ∧ supported_mode (mode s))) (steps recipe))
    ++ (not_in_lookup "accessory"
          <$> filter (λ a, a ∉ accessories lookups) accessories_arg)
  ∧ (∀ i, i ∈ ingredients recipe → unit i ∉ units lookups →
       {| norm_message :=
            py "unit value '" ++ unit i ++ py "' is not in lookup list" |}
       ∈ normalize_recipe recipe lookups accessories_arg)
  ∧ (∀ s, s ∈ steps recipe →
       ¬ (mode s ∈ working_modes lookups ∧ supported_mode (mode s)) →
       {| norm_message :=
            py "working_mode value '" ++ mode s
               ++ py "' is not in lookup list" |}
       ∈ normalize_recipe recipe lookups accessories_arg).
Proof.
  assert (E : normalize_recipe recipe lookups accessories_arg
    = ((λ i, not_in_lookup "unit" (unit i))
         <$> filter (λ i, unit i ∉ units lookups) (ingredients recipe))
      ++ ((λ s, not_in_lookup "working_mode" (mode s))
            <$> filter (λ s, ¬ (mode s ∈ working_modes lookups
                                ∧ supported_mode (mode s))) (steps recipe))
      ++ (not_in_lookup "accessory"
            <$> filter (λ a, a ∉ accessories lookups) accessories_arg)).
  { unfold normalize_recipe. cbn [app].
    by rewrite normalize_ingredients_filter, normalize_steps_filter,
      normalize_accessories_filter, <- app_assoc. }
  split; [exact E|]. rewrite E. split.
  - intros i Hi Hu. apply elem_of_app. left.
    apply (list_elem_of_fmap_2' _ _ i); [|done].
    by apply list_elem_of_filter.
  - intros s Hs Hm. apply elem_of_app. right. apply elem_of_app. left.
    apply (list_elem_of_fmap_2' _ _ s); [|done].
    by apply list_elem_of_filter.
Qed.

(** C10.  Two lookup tables with the same units, accessories and working
    modes give the same normalisation errors for every recipe and every
    accessory list, whatever their categories and labels are. *)
Theorem normalize_recipe_ignores_categories_labels
    (recipe : Recipe) (accessories_arg : list pystr)
    (lookups1 lookups2 : LookupTables) :
  units lookups1 = units lookups2 →
  accessories lookups1 = accessories lookups2 →
  working_modes lookups1 = working_modes lookups2 →
  normalize_recipe recipe lookups1 accessories_arg
  = normalize_recipe recipe lookups2 accessories_arg.
Proof.
  intros Hu Ha Hw.
  unfold normalize_recipe, normalize_ingredients, normalize_steps,
    normalize_accessories.
  by rewrite Hu, Ha, Hw.
Qed.

(** ** Order and trimming of strings *)

Lemma leb_refl a : leb a a = true.
Proof. induction a as [|x a IH]; [done|]. cbn. by rewrite N.ltb_irrefl. Qed.

Lemma leb_total a b : leb a b = true ∨ leb b a = true.
Proof.
  revert b. induction a as [|x a IH]; intros [|y b]; cbn; auto.
  destruct (N.ltb_spec x y), (N.ltb_spec y x); auto; lia.
Qed.

Lemma leb_antisym a b : leb a b = true → leb b a = true → a = b.
Proof.
  revert b. induction a as [|x a IH]; intros [|y b]; cbn; try done.
  destruct (N.ltb_spec x y), (N.ltb_spec y x); try done; try lia.
  intros. f_equal; [lia | auto].
Qed.

Lemma leb_trans a b c : leb a b = true → leb b c = true → leb a c = true.
Proof.
  revert b c. induction a as [|x a IH]; intros [|y b] [|z c]; cbn; try done.
  destruct (N.ltb_spec x y), (N.ltb_spec y x), (N.ltb_spec y z),
    (N.ltb_spec z y), (N.ltb_spec x z), (N.ltb_spec z x);
    try done; try lia.
  apply IH.
Qed.

#[global] Instance le_refl : Reflexive PyStr.le.
Proof. intros a. apply leb_refl. Qed.
#[global] Instance le_total : Total PyStr.le.
Proof. intros a b. apply leb_total. Qed.
#[global] Instance le_trans : Transitive PyStr.le.
Proof. intros a b c. apply leb_trans. Qed.
#[global] Instance le_antisym : AntiSymm (=) PyStr.le.
Proof. intros a b. apply leb_antisym. Qed.

Lemma lstrip_idemp s : lstrip (lstrip s) = lstrip s.
Proof.
  induction s as [|c s IH]; [done|]. cbn.
  destruct (isspace c) eqn:E; [done|]. cbn. by rewrite E.
Qed.

Lemma lstrip_snoc s c :
  isspace c = false → lstrip (s ++ [c]) = lstrip s ++ [c].
Proof.
  intros E. induction s as [|d s IH]; cbn.
  - by rewrite E.
  - by destruct (isspace d).
Qed.

Lemma rstrip_cons c s :
  isspace c = false → rstrip (c :: s) = c :: rstrip s.
Proof.
  intros E. unfold rstrip. cbn [rev].
  by rewrite lstrip_snoc, rev_app_distr.
Qed.

Lemma rstrip_idemp s : rstrip (rstrip s) = rstrip s.
Proof. unfold rstrip. by rewrite rev_involutive, lstrip_idemp. Qed.

Lemma lstrip_head s :
  lstrip s = [] ∨ ∃ c t, lstrip s = c :: t ∧ isspace c = false.
Proof.
  induction s as [|c s IH]; [by left|]. cbn.
  destruct (isspace c) eqn:E; [done|]. right. eauto.
Qed.

Lemma strip_idemp s : strip (strip s) = strip s.
Proof.
  unfold strip. destruct (lstrip_head s) as [->|(c & t & -> & E)]; [done|].
  rewrite rstrip_cons by done. cbn [lstrip]. rewrite E.
  by rewrite <- (rstrip_cons c) by done; rewrite rstrip_idemp.
Qed.

(** ** Lookup loading *)

Lemma elem_of_sorted x xs : x ∈ sorted xs ↔ x ∈ xs.
Proof. unfold sorted. by rewrite merge_sort_Permutation. Qed.

Lemma elem_of_unique_sorted o values x :
  x ∈ _unique_sorted o values ↔ x ∈ values.
Proof.
  unfold _unique_sorted. by rewrite elem_of_sorted, set_iter_elem.
Qed.

Lemma NoDup_unique_sorted o values : NoDup (_unique_sorted o values).
Proof.
  unfold _unique_sorted, sorted. rewrite merge_sort_Permutation.
  apply set_iter_NoDup.
Qed.

Lemma Sorted_unique_sorted o values :
  StronglySorted PyStr.le (_unique_sorted o values).
Proof. apply StronglySorted_merge_sort; apply _. Qed.

(** In a list without repetition, ascending means strictly ascending. *)
Lemma StronglySorted_le_lt l :
  NoDup l → StronglySorted PyStr.le l → StronglySorted PyStr.lt l.
Proof.
  induction 2 as [|x l Hs IH Hx]; constructor.
  - apply IH. by eapply NoDup_cons_1_2.
  - apply Forall_forall. intros y Hy. split.
    + by eapply Forall_forall in Hx.
    + intros ->. by eapply NoDup_cons_1_1.
Qed.

(** The order in which the set is walked does not show in the result. *)
Lemma _unique_sorted_order_free o1 o2 values :
  _unique_sorted o1 values = _unique_sorted o2 values.
Proof.
  apply (Sorted_unique PyStr.le).
  - apply Sorted_merge_sort; apply _.
  - apply Sorted_merge_sort; apply _.
  - apply NoDup_Permutation; [apply NoDup_unique_sorted..|].
    intros x. by rewrite !elem_of_unique_sorted.
Qed.

Lemma elem_of_strip_empty values x :
  x ∈ _strip_empty values
  ↔ ∃ v, Some v ∈ values ∧ strip v ≠ [] ∧ x = strip v.
Proof.
  unfold _strip_empty. rewrite list_elem_of_omap. split.
  - intros ([v|] & Hin & Hx); [|done]. exists v.
    destruct (truthy v) eqn:Ev; cbn in Hx; [|done].
    destruct (truthy (strip v)) eqn:Es; cbn in Hx; [|done].
    apply truthy_true in Es. by injection Hx as <-.
  - intros (v & Hin & Hs & ->). exists (Some v). split; [done|].
    apply truthy_true in Hs as Hs'. rewrite Hs'.
    assert (truthy v = true) as ->; [|done].
    apply truthy_true. by intros ->.
Qed.

Lemma elem_of_extract_column rows header x :
  x ∈ _extract_column rows header
  ↔ ∃ r v, r ∈ rows ∧ r !! header = Some (Some v)
           ∧ strip v ≠ [] ∧ x = strip v.
Proof.
  unfold _extract_column. rewrite elem_of_strip_empty. split.
  - intros (v & Hin & Hs & ->).
    apply list_elem_of_fmap in Hin as (r & Hr & Hin).
    exists r, v. repeat split; try done.
    unfold row_get in Hr.
    destruct (r !! header) as [[?|]|]; cbn in Hr; by simplify_eq.
  - intros (r & v & Hin & Hr & Hs & ->). exists v. repeat split; try done.
    apply list_elem_of_fmap. exists r. split; [|done].
    unfold row_get. by rewrite Hr.
Qed.

Lemma elem_of_sheet_rows snapshot sheet r :
  r ∈ sheet_rows (load_snapshot snapshot) sheet
  ↔ ∃ sh rows, sheets snapshot = Some sh
               ∧ sh !! sheet = Some (SheetDict (Some rows)) ∧ r ∈ rows.
Proof.
  unfold sheet_rows, load_snapshot. rewrite lookup_omap.
  destruct (sheets snapshot) as [sh|]; cbn.
  - destruct (sh !! sheet) as [[[rows|]|]|] eqn:E; cbn.
    + split; [by eauto|]. by intros (? & ? & ? & ? & ?); simplify_eq.
    + split; [by intros ?%elem_of_nil|].
      by intros (? & ? & ? & ? & ?); simplify_eq.
    + split; [by intros ?%elem_of_nil|].
      by intros (? & ? & ? & ? & ?); simplify_eq.
    + split; [by intros ?%elem_of_nil|].
      by intros (? & ? & ? & ? & ?); simplify_eq.
  - rewrite lookup_empty. cbn.
    split; [by intros ?%elem_of_nil|]. by intros (? & ? & ? & ?).
Qed.

(** One category of [load_lookups], whatever its sheet and header. *)
Lemma lookup_column_ok o snapshot sheet header :
  lookup_list_ok snapshot sheet header
    (_unique_sorted o
       (_extract_column (sheet_rows (load_snapshot snapshot) sheet) header)).
Proof.
  set (l := _unique_sorted o _).
  assert (Hel : ∀ x, x ∈ l ↔ ∃ value, cell_in snapshot sheet header value
                                       ∧ strip value ≠ [] ∧ x = strip value).
  { intros x. unfold l, cell_in.
    rewrite elem_of_unique_sorted, elem_of_extract_column. split.
    - intros (r & v & (sh & rows & ? & ? & ?)%elem_of_sheet_rows & ? & ? & ?).
      exists v. split; [|done]. by exists sh, rows, r.
    - intros (v & (sh & rows & r & ? & ? & ? & ?) & ? & ?).
      exists r, v. split; [|done]. apply elem_of_sheet_rows. eauto. }
  assert (Hempty : (∀ value, ¬ cell_in snapshot sheet header value) → l = []).
  { intros Hno. destruct l as [|x l'] eqn:E; [done|].
    destruct (proj1 (Hel x)) as (v & Hv & _); [left|]. by destruct (Hno v). }
  split; [exact Hel|]. split; [apply NoDup_unique_sorted|].
  split; [|split; [|split]].
  - apply StronglySorted_le_lt;
      [apply NoDup_unique_sorted | apply Sorted_unique_sorted].
  - intros x (v & _ & Hs & ->)%Hel. by rewrite strip_idemp.
  - intros Habs. apply Hempty.
    intros v (sh & rows & r & Hsh & Hl & _). apply Habs in Hsh. congruence.
  - intros Habs. apply Hempty.
    intros v (sh & rows & r & Hsh & Hl & Hr & Hc).
    rewrite (Habs _ _ _ Hsh Hl Hr) in Hc. done.
Qed.

(** C7.  Each of the five lists of [load_lookups] holds exactly the
    trimmed values of its own sheet and column, cells that are missing,
    null, empty or all whitespace being left out; it has no duplicates
    and is in strictly ascending lexicographic order; and a sheet or a
    column that the snapshot does not have gives the empty list. *)
Theorem load_lookups_lists (o : set_iteration) (snapshot : snapshot_json) :
  let lookups := load_lookups o snapshot in
  lookup_list_ok snapshot SHEET_UNITS HEADER_UNITS (units lookups)
  ∧ lookup_list_ok snapshot SHEET_ACCESSORIES HEADER_ACCESSORIES
      (accessories lookups)
  ∧ lookup_list_ok snapshot SHEET_WORKING_MODES HEADER_WORKING_MODES
      (working_modes lookups)
  ∧ lookup_list_ok snapshot SHEET_CATEGORIES HEADER_CATEGORIES
      (categories lookups)
  ∧ lookup_list_ok snapshot SHEET_LABELS HEADER_LABELS (labels lookups).
Proof.
  cbv zeta. split; [|split; [|split; [|split]]]; apply lookup_column_ok.
Qed.

(** C8.  Two calls of [load_lookups] on the same snapshot give the same
    five lists, element for element and in the same order, even when the
    two calls walk their intermediate sets in different orders. *)
Theorem load_lookups_deterministic (o1 o2 : set_iteration)
    (snapshot : snapshot_json) :
  let first := load_lookups o1 snapshot in
  let second := load_lookups o2 snapshot in
  units first = units second
  ∧ accessories first = accessories second
  ∧ working_modes first = working_modes second
  ∧ categories first = categories second
  ∧ labels first = labels second.
Proof. cbv zeta. repeat split; apply _unique_sorted_order_free. Qed.

(** ** Orchestration *)

Section PipelineProperties.

Variable writer_outcome : list Recipe → pystr → pystr → option pystr.

Lemma check_recipe_passes lookups r log :
  passes lookups r → check_recipe lookups r log = (inr (), log).
Proof. intros (Hs & Hn & Hr). unfold check_recipe. by rewrite Hs, Hn, Hr. Qed.

Lemma check_recipe_failure lookups r e log :
  recipe_failure lookups r e → check_recipe lookups r log = (inl e, log).
Proof.
  unfold check_recipe.
  intros [(Hs & ->)|[(Hs & Hn & ->)|(Hs & Hn & Hr & ->)]].
  - apply truthy_true in Hs. by rewrite Hs.
  - rewrite Hs. cbn [truthy]. apply truthy_true in Hn. by rewrite Hn.
  - rewrite Hs, Hn. cbn [truthy]. apply truthy_true in Hr. by rewrite Hr.
Qed.

Lemma not_passes_failure lookups r :
  ¬ passes lookups r → ∃ e, recipe_failure lookups r e.
Proof.
  intros Hnot. unfold recipe_failure.
  destruct (decide (validate_recipe r = [])) as [Hs|Hs]; [|by eauto].
  destruct (decide (normalize_recipe r lookups [] = [])) as [Hn|Hn];
    [|by eauto 6].
  destruct (decide (validate_steps (steps r) = [])) as [Hr|Hr];
    [|by eauto 8].
  by destruct Hnot.
Qed.

Lemma recipe_failure_not_passes lookups r e :
  recipe_failure lookups r e → ¬ passes lookups r.
Proof. unfold recipe_failure, passes. tauto. Qed.

Lemma for_each_all_pass lookups recipes log :
  Forall (passes lookups) recipes →
  for_each recipes (check_recipe lookups) log = (inr (), log).
Proof.
  induction 1 as [|r rs Hr _ IH]; [done|].
  cbn. unfold bind. by rewrite check_recipe_passes.
Qed.

Lemma for_each_first_failure lookups pre r rest e log :
  Forall (passes lookups) pre →
  recipe_failure lookups r e →
  for_each (pre ++ r :: rest) (check_recipe lookups) log = (inl e, log).
Proof.
  intros Hpre He. induction Hpre as [|p pre Hp _ IH]; cbn; unfold bind.
  - by rewrite (check_recipe_failure _ _ e).
  - by rewrite check_recipe_passes.
Qed.

Lemma first_failing_recipe lookups recipes :
  ¬ Forall (passes lookups) recipes →
  ∃ pre r rest, recipes = pre ++ r :: rest
                ∧ Forall (passes lookups) pre ∧ ¬ passes lookups r.
Proof.
  induction recipes as [|r rs IH]; intros Hnot.
  - by destruct Hnot.
  - destruct (decide (passes lookups r)) as [Hr|Hr].
    + destruct IH as (pre & r' & rest & -> & Hpre & Hr').
      { intros Hrs. apply Hnot. by constructor. }
      exists (r :: pre), r', rest. repeat split; [by constructor|done].
    + exists [], r, rs. by repeat split.
Qed.

(** C1.  [run_pipeline] calls the writer exactly when every recipe of the
    batch clears schema validation, normalisation and rule validation
    with no error, and then hands it the whole recipe list with the
    template and output paths.  Otherwise the run raises the error list
    of a stage of one of its recipes and the writer is not called at
    all. *)
Theorem run_pipeline_all_or_nothing (o : set_iteration)
    (recipes : list Recipe) (snapshot : snapshot_json)
    (template_path output_path : pystr) (log : list event) :
  let lookups := load_lookups o snapshot in
  let result :=
    run_pipeline writer_outcome o recipes snapshot template_path output_path
      log in
  (Forall (passes lookups) recipes
   ↔ result.2 = log ++ [WriteRecipes recipes template_path output_path])
  ∧ (Forall (passes lookups) recipes →
       result
       = write_recipes_to_template writer_outcome recipes template_path
           output_path log)
  ∧ (¬ Forall (passes lookups) recipes →
       result.2 = log
       ∧ ∃ r e, r ∈ recipes ∧ recipe_failure lookups r e
                ∧ result.1 = inl e).
Proof.
  cbv zeta. set (lookups := load_lookups o snapshot).
  assert (Hok : Forall (passes lookups) recipes →
    run_pipeline writer_outcome o recipes snapshot template_path output_path
      log
    = write_recipes_to_template writer_outcome recipes template_path
        output_path log).
  { intros Hall. unfold run_pipeline, bind. fold lookups.
    by rewrite for_each_all_pass. }
  assert (Hko : ¬ Forall (passes lookups) recipes →
    ∃ r e, r ∈ recipes ∧ recipe_failure lookups r e
      ∧ run_pipeline writer_outcome o recipes snapshot template_path
          output_path log = (inl e, log)).
  { intros (pre & r & rest & -> & Hpre & Hr)%first_failing_recipe.
    destruct (not_passes_failure _ _ Hr) as (e & He).
    exists r, e. split; [|split; [done|]].
    - apply elem_of_app. right. left.
    - unfold run_pipeline, bind. fold lookups.
      by rewrite (for_each_first_failure _ _ _ _ e). }
  split; [split|split].
  - intros Hall. rewrite (Hok Hall). unfold write_recipes_to_template.
    by destruct (writer_outcome _ _ _).
  - intros Hlog.
    destruct (decide (Forall (passes lookups) recipes)) as [|Hnot]; [done|].
    destruct (Hko Hnot) as (r & e & _ & _ & E). rewrite E in Hlog.
    cbn in Hlog. apply (f_equal length) in Hlog.
    rewrite length_app in Hlog. cbn in Hlog. lia.
  - exact Hok.
  - intros Hnot. destruct (Hko Hnot) as (r & e & Hin & He & E).
    rewrite E. split; [done|]. by exists r, e.
Qed.

(** C6, as the code has it.  The recipes are taken in order and each one
    goes through schema validation, then normalisation, then rule
    validation before the next recipe is looked at.  With every recipe
    before [r] clearing the three stages, the run raises the failure of
    the first stage [r] fails, whatever comes after [r]: a schema-error
    failure when [r] has schema errors, a normalisation failure when it
    has none but has normalisation errors, a rule failure when only its
    steps are at fault; and the writer is not called. *)
Theorem run_pipeline_first_failure (o : set_iteration)
    (pre rest : list Recipe) (r : Recipe) (snapshot : snapshot_json)
    (template_path output_path : pystr) (log : list event) :
  let lookups := load_lookups o snapshot in
  let result :=
    run_pipeline writer_outcome o (pre ++ r :: rest) snapshot template_path
      output_path log in
  Forall (passes lookups) pre →
  (validate_recipe r ≠ [] →
     result = (inl (SchemaErrors (validate_recipe r)), log))
  ∧ (validate_recipe r = [] → normalize_recipe r lookups [] ≠ [] →
       result
       = (inl (NormalizationErrors (normalize_recipe r lookups [])), log))
  ∧ (validate_recipe r = [] → normalize_recipe r lookups [] = [] →
       validate_steps (steps r) ≠ [] →
       result = (inl (RuleErrors (validate_steps (steps r))), log)).
Proof.
  cbv zeta. intros Hpre. unfold run_pipeline, bind.
  repeat split; intros.
  all: erewrite for_each_first_failure; [done|done|].
  all: unfold recipe_failure; eauto 8.
Qed.

End PipelineProperties.

(** ** The theorems at concrete inputs *)

(** A description step with a blank description and all five controls
    set gets two errors, not six. *)
Lemma description_weigh_step_errors_witness :
  (mode blank_hot_step = MODE_DESCRIPTION ∨ mode blank_hot_step = MODE_WEIGH)
  ∧ validate_steps [blank_hot_step]
    = [description_required blank_hot_step;
       controls_must_be_empty blank_hot_step].
Proof.
  split; [left; reflexivity|].
  apply (description_weigh_step_errors blank_hot_step).
  - left. reflexivity.
  - reflexivity.
  - left. discriminate.
Defined.

Lemma adapted_cooking_step_ok_witness :
  mode stir_step = MODE_ADAPTED
  ∧ temperature stir_step = Some 90
  ∧ direction stir_step = Some (py "CCW")
  ∧ validate_steps [stir_step] = [].
Proof.
  split; [reflexivity|]. split; [reflexivity|]. split; [reflexivity|].
  apply (adapted_cooking_step_ok stir_step).
  - reflexivity.
  - reflexivity.
  - discriminate.
  - right. discriminate.
Defined.

Lemma unsupported_mode_step_error_witness :
  let s := mk_step 2 (py "INVALID") in
  validate_steps [s] = [unsupported_working_mode s]
  ∧ validate_steps ([chop] ++ s :: [cook])
    = validate_steps [chop] ++ unsupported_working_mode s
        :: validate_steps [cook].
Proof.
  apply (unsupported_mode_step_error [chop] [cook] (mk_step 2 (py "INVALID"))).
  intros [H|[H|H]]; discriminate H.
Defined.

Lemma normalize_recipe_ignores_categories_labels_witness :
  normalize_recipe bad_unit_recipe (sample_lookups [] []) [py "spoon"]
  = normalize_recipe bad_unit_recipe
      (sample_lookups [py "soup"] [py "vegan"; py "quick"]) [py "spoon"].
Proof.
  apply (normalize_recipe_ignores_categories_labels bad_unit_recipe
           [py "spoon"] (sample_lookups [] [])
           (sample_lookups [py "soup"] [py "vegan"; py "quick"]));
    reflexivity.
Defined.

(** After a recipe that passes, a recipe with schema errors stops the run
    with them, the recipe with the bad unit behind it never being
    reached. *)
Lemma run_pipeline_first_failure_witness :
  let lookups := load_lookups first_seen sample_snapshot in
  Forall (passes lookups) [good_recipe]
  ∧ validate_recipe bad_recipe ≠ []
  ∧ run_pipeline no_writer_failure first_seen
      ([good_recipe] ++ bad_recipe :: [bad_unit_recipe]) sample_snapshot
      (py "template.xlsx") (py "out.xlsx") []
    = (inl (SchemaErrors (validate_recipe bad_recipe)), []).
Proof.
  cbv zeta.
  assert (Hpre : Forall (passes (load_lookups first_seen sample_snapshot))
                   [good_recipe]).
  { refine (bool_decide_unpack (Forall _ _) _). vm_compute. exact I. }
  assert (Hbad : validate_recipe bad_recipe ≠ []) by discriminate.
  split; [exact Hpre|]. split; [exact Hbad|].
  exact (proj1 (run_pipeline_first_failure no_writer_failure first_seen
                  [good_recipe] [bad_unit_recipe] bad_recipe sample_snapshot
                  (py "template.xlsx") (py "out.xlsx") [] Hpre) Hbad).
Defined.

(** C6 as it is stated fails: the second recipe of this batch has schema
    errors, yet the run stops at the first recipe, whose unit is not
    listed, and raises a normalisation failure; no schema-error failure
    is signaled. *)
Lemma schema_error_behind_bad_unit :
  let result :=
    run_pipeline no_writer_failure first_seen [bad_unit_recipe; bad_recipe]
      sample_snapshot (py "template.xlsx") (py "out.xlsx") [] in
  bad_recipe ∈ [bad_unit_recipe; bad_recipe]
  ∧ validate_recipe bad_recipe ≠ []
  ∧ validate_recipe bad_unit_recipe = []
  ∧ result
    = (inl (NormalizationErrors [not_in_lookup "unit" (py "INVALID")]), [])
  ∧ ∀ schema_errors, result.1 ≠ inl (SchemaErrors schema_errors).
Proof.
  cbv zeta. split; [right; left|]. split; [discriminate|].
  split; [reflexivity|].
  assert (E : run_pipeline no_writer_failure first_seen
                [bad_unit_recipe; bad_recipe] sample_snapshot
                (py "template.xlsx") (py "out.xlsx") []
              = (inl (NormalizationErrors
                        [not_in_lookup "unit" (py "INVALID")]), []))
    by (vm_compute; reflexivity).
  split; [exact E|]. intros errs. rewrite E. discriminate.
Qed.

(** * Further properties of the code *)

(** ** Schema validation *)

Lemma validate_recipe_checks recipe :
  validate_recipe recipe
  = (if decide (language (meta recipe) = LANGUAGE_ES)
     then [] else [err_language])
    ++ (if decide (recipe_type (meta recipe) = RECIPE_TYPE_ROBOT_COOKER)
        then [] else [err_recipe_type])
    ++ (if decide (0 < recipe_no (meta recipe)) then [] else [err_recipe_no])
    ++ (if decide (0 < servings (meta recipe)) then [] else [err_servings])
    ++ (if decide (strip (name (meta recipe)) = []) then [err_name] else [])
    ++ (if decide (ingredients recipe = []) then [err_ingredients] else [])
    ++ (if decide (steps recipe = []) then [err_steps] else []).
Proof.
  unfold validate_recipe, when. cbn [app].
  rewrite !bool_decide_decide, <- !app_assoc.
  repeat f_equal.
  - destruct (decide (language (meta recipe) = LANGUAGE_ES)).
    + by rewrite decide_False by (intros ?; done).
    + by rewrite decide_True.
  - destruct (decide (recipe_type (meta recipe) = RECIPE_TYPE_ROBOT_COOKER)).
    + by rewrite decide_False by (intros ?; done).
    + by rewrite decide_True.
  - destruct (Z.leb_spec (recipe_no (meta recipe)) 0);
      case_decide; (done || lia).
  - destruct (Z.leb_spec (servings (meta recipe)) 0);
      case_decide; (done || lia).
  - destruct (strip (name (meta recipe))); by case_decide.
  - destruct (ingredients recipe); by case_decide.
  - destruct (steps recipe); by case_decide.
Qed.

Lemma validate_recipe_nil recipe :
  validate_recipe recipe = [] ↔ schema_ok recipe.
Proof.
  rewrite validate_recipe_checks. unfold schema_ok.
  repeat case_decide; cbn; split; intros; try done; tauto.
Qed.

(** X1.  A recipe has no schema error exactly when its language and
    type are the supported ones, its number and servings are positive,
    its name is not blank, and it has an ingredient and a step. *)
Theorem validate_recipe_accepts_iff (recipe : Recipe) :
  validate_recipe recipe = [] ↔ schema_ok recipe.
Proof. apply validate_recipe_nil. Qed.

(** X2.  Whatever the recipe, the schema errors come in the order of the
    seven checks, no message twice, so there are at most seven. *)
Theorem validate_recipe_ordered_distinct (recipe : Recipe) :
  validate_recipe recipe `sublist_of` all_schema_errors
  ∧ NoDup (validate_recipe recipe)
  ∧ (length (validate_recipe recipe) ≤ 7)%nat.
Proof.
  assert (Hsub : validate_recipe recipe `sublist_of` all_schema_errors).
  { rewrite validate_recipe_checks.
    change all_schema_errors
      with ([err_language] ++ [err_recipe_type] ++ [err_recipe_no]
            ++ [err_servings] ++ [err_name] ++ [err_ingredients]
            ++ [err_steps]).
    repeat apply sublist_app;
      case_decide; (reflexivity || apply sublist_nil_l). }
  split; [done|]. split.
  - apply (sublist_NoDup _ all_schema_errors); [|exact Hsub].
    refine (bool_decide_unpack (NoDup _) _). vm_compute. exact I.
  - apply sublist_length in Hsub. exact Hsub.
Qed.

(** X3.  The schema validator looks at the meta data and at whether the
    two lists are empty, and at nothing else: neither quantities, units
    and names of ingredients nor any field of a step change its result. *)
Theorem validate_recipe_reads_meta_only (r1 r2 : Recipe) :
  meta r1 = meta r2 →
  (ingredients r1 = [] ↔ ingredients r2 = []) →
  (steps r1 = [] ↔ steps r2 = []) →
  validate_recipe r1 = validate_recipe r2.
Proof.
  intros Hm Hi Hs. rewrite !validate_recipe_checks, Hm.
  repeat f_equal; repeat case_decide; tauto.
Qed.

(** ** Step rules *)

Lemma when_nil {A} (b : bool) (x : A) : when b x = [] ↔ b = false.
Proof. by destruct b. Qed.

Lemma validate_step_nil s : validate_step s = [] ↔ step_ok s.
Proof.
  destruct modes_distinct as (Hdw & Hda & Hwa).
  unfold validate_step, step_ok.
  case_bool_decide as Hdw'.
  - rewrite app_nil, !when_nil.
    rewrite <- !not_true_iff_false, description_missing_blank,
      _has_controls_spec.
    split; [by left|].
    intros [(_ & ? & ?)|(Ha & _)]; [done|].
    rewrite Ha in Hdw'. intuition congruence.
  - case_bool_decide as Ha.
    + rewrite !app_nil, !when_nil, description_given_blank.
      rewrite andb_false_iff, !negb_false_iff.
      split.
      * intros (Hb & Ht & Hs). right. repeat split; try done.
        -- destruct (minutes s), (seconds s); cbn in Ht;
             intuition congruence.
        -- by destruct (speed s).
      * intros [(? & _)|(_ & Hb & Ht & Hs)]; [done|].
        repeat split; try done.
        -- destruct (minutes s), (seconds s); cbn; intuition congruence.
        -- by destruct (speed s).
    + split; [done|]. intros [(? & _)|(? & _)]; done.
Qed.

(** X4.  A list of steps has no rule error exactly when every step is
    either a description or weigh step with a non-blank description and
    none of the five controls, or an adapted-cooking step with a blank or
    absent description, a speed, and minutes or seconds. *)
Theorem validate_steps_accepts_iff (steps : list Step) :
  validate_steps steps = [] ↔ Forall step_ok steps.
Proof.
  induction steps as [|s steps IH].
  - split; [by constructor|done].
  - rewrite validate_steps_cons, app_nil, Forall_cons, IH.
    by rewrite validate_step_nil.
Qed.

(** X5.  An adapted-cooking step is checked on three points, each on
    its own and in this order: a description that is not blank, no minutes
    and no seconds, no speed.  The three errors are different from each
    other. *)
Theorem adapted_cooking_step_errors (s : Step) :
  mode s = MODE_ADAPTED →
  validate_steps [s]
  = (if decide (blank (description s))
     then [] else [description_should_be_empty s])
    ++ (if decide (minutes s = None ∧ seconds s = None)
        then [time_required s] else [])
    ++ (if decide (speed s = None) then [speed_required s] else [])
  ∧ NoDup [description_should_be_empty s; time_required s; speed_required s].
Proof.
  intros Hmode. destruct modes_distinct as (_ & Hda & Hwa). split.
  - rewrite validate_steps_singleton. unfold validate_step.
    rewrite bool_decide_eq_false_2 by (rewrite Hmode; intuition congruence).
    rewrite bool_decide_eq_true_2 by done.
    repeat f_equal.
    + destruct (description_given s) eqn:E; case_decide as Hb; try done.
      * apply description_given_blank in Hb. congruence.
      * apply description_given_blank in E. done.
    + destruct (minutes s), (seconds s); case_decide; cbn;
        intuition congruence.
    + destruct (speed s); by case_decide.
  - repeat constructor; rewrite ?elem_of_cons, ?elem_of_nil.
    all: intros H; repeat destruct H as [H|H]; try done.
    all: apply rule_message_text_inj in H; discriminate H.
Qed.

Lemma validate_step_length s : (length (validate_step s) ≤ 3)%nat.
Proof.
  unfold validate_step, when.
  repeat case_bool_decide; repeat case_match; cbn; lia.
Qed.

(** X6.  No step gets more than three rule errors, so a list of [n]
    steps gets at most [3 * n]. *)
Theorem validate_steps_at_most_three_each (steps : list Step) :
  (length (validate_steps steps) ≤ 3 * length steps)%nat.
Proof.
  induction steps as [|s steps IH]; [done|].
  rewrite validate_steps_cons, length_app. cbn [length].
  pose proof (validate_step_length s). lia.
Qed.

(** ** Normalisation *)

Lemma fmap_filter_nil {A B} (f : A → B) (P : A → Prop)
    `{∀ x, Decision (P x)} (l : list A) :
  f <$> filter P l = [] ↔ Forall (λ x, ¬ P x) l.
Proof.
  induction l as [|x l IH]; [by split; [constructor|]|].
  rewrite filter_cons, Forall_cons. destruct (decide (P x)).
  - split; [done|]. by intros [? _].
  - rewrite IH. tauto.
Qed.

Lemma filter_all {A} (P : A → Prop) `{∀ x, Decision (P x)} (l : list A) :
  (∀ x, P x) → filter P l = l.
Proof.
  intros HP. induction l as [|x l IH]; [done|].
  by rewrite filter_cons_True, IH.
Qed.

Lemma normalize_recipe_nil recipe lookups accessories_arg :
  normalize_recipe recipe lookups accessories_arg = []
  ↔ Forall (λ i, unit i ∈ units lookups) (ingredients recipe)
    ∧ Forall (λ s, mode s ∈ working_modes lookups ∧ supported_mode (mode s))
        (steps recipe)
    ∧ Forall (λ a, a ∈ accessories lookups) accessories_arg.
Proof.
  unfold normalize_recipe. cbn [app].
  rewrite normalize_ingredients_filter, normalize_steps_filter,
    normalize_accessories_filter, !app_nil, !fmap_filter_nil.
  rewrite !Forall_forall.
  split.
  - intros ((H1 & H2) & H3).
    split; [|split]; intros x Hx; apply dec_stable; auto.
  - intros (H1 & H2 & H3).
    split; [split|]; intros x Hx Hn; apply Hn; auto.
Qed.

(** X7.  Normalisation reports nothing exactly when every ingredient
    unit is listed in [units], every step mode is listed in
    [working_modes] and is one of the three supported labels, and every
    accessory is listed in [accessories]. *)
Theorem normalize_recipe_accepts_iff (recipe : Recipe)
    (lookups : LookupTables) (accessories_arg : list pystr) :
  normalize_recipe recipe lookups accessories_arg = []
  ↔ Forall (λ i, unit i ∈ units lookups) (ingredients recipe)
    ∧ Forall (λ s, mode s ∈ working_modes lookups ∧ supported_mode (mode s))
        (steps recipe)
    ∧ Forall (λ a, a ∈ accessories lookups) accessories_arg.
Proof. apply normalize_recipe_nil. Qed.

(** X8.  An empty lookup list rejects everything of its category: with
    no unit listed every ingredient gets an error, with no working mode
    listed every step does, with no accessory listed every accessory
    does. *)
Theorem empty_lookup_rejects_everything (recipe : Recipe)
    (lookups : LookupTables) (accessories_arg : list pystr) :
  (units lookups = [] →
     normalize_ingredients (ingredients recipe) lookups
     = (λ i, not_in_lookup "unit" (unit i)) <$> ingredients recipe)
  ∧ (working_modes lookups = [] →
       normalize_steps (steps recipe) lookups
       = (λ s, not_in_lookup "working_mode" (mode s)) <$> steps recipe)
  ∧ (accessories lookups = [] →
       normalize_accessories accessories_arg lookups
       = not_in_lookup "accessory" <$> accessories_arg).
Proof.
  rewrite normalize_ingredients_filter, normalize_steps_filter,
    normalize_accessories_filter.
  repeat split; intros ->; f_equal; apply filter_all.
  - intros i. apply not_elem_of_nil.
  - intros s [[]%elem_of_nil _].
  - intros a. apply not_elem_of_nil.
Qed.

Lemma supported_step_not_unsupported s :
  supported_mode (mode s) → unsupported_working_mode s ∉ validate_step s.
Proof.
  intros Hsup Hin. unfold validate_step, when in Hin.
  repeat case_bool_decide; repeat case_match;
    rewrite ?elem_of_app, ?elem_of_cons, ?elem_of_nil in Hin.
  all: try (unfold supported_mode in Hsup; tauto).
  all: repeat destruct Hin as [Hin|Hin]; try done.
  all: apply rule_message_text_inj in Hin; discriminate Hin.
Qed.

(** X10.  Steps that clear normalisation never reach the "unsupported
    working mode" branch of the rule validator: each has one of the three
    supported modes and its rule errors do not include that error. *)
Theorem normalized_steps_are_supported (steps : list Step)
    (lookups : LookupTables) :
  normalize_steps steps lookups = [] →
  Forall (λ s, supported_mode (mode s)
               ∧ unsupported_working_mode s ∉ validate_steps [s]) steps.
Proof.
  rewrite normalize_steps_filter, fmap_filter_nil.
  intros Hall. eapply Forall_impl; [exact Hall|]. cbv beta. intros s Hs.
  assert (supported_mode (mode s)) as Hsup.
  { destruct (decide (supported_mode (mode s))) as [|Hn]; [done|].
    destruct Hs. tauto. }
  split; [done|]. rewrite validate_steps_singleton.
  by apply supported_step_not_unsupported.
Qed.

(** ** Lookup loading *)

Lemma unique_sorted_same_elems o1 o2 values1 values2 :
  (∀ x, x ∈ values1 ↔ x ∈ values2) →
  _unique_sorted o1 values1 = _unique_sorted o2 values2.
Proof.
  intros Hel. apply (Sorted_unique PyStr.le).
  - apply Sorted_merge_sort; apply _.
  - apply Sorted_merge_sort; apply _.
  - apply NoDup_Permutation; [apply NoDup_unique_sorted..|].
    intros x. by rewrite !elem_of_unique_sorted.
Qed.

Lemma extract_column_same_rows o1 o2 rows1 rows2 header :
  (∀ r, r ∈ rows1 ↔ r ∈ rows2) →
  _unique_sorted o1 (_extract_column rows1 header)
  = _unique_sorted o2 (_extract_column rows2 header).
Proof.
  intros Hrows. apply unique_sorted_same_elems. intros x.
  rewrite !elem_of_extract_column.
  split; intros (r & v & Hr & ?); exists r, v; (split; [by apply Hrows|done]).
Qed.

Lemma load_lookups_same_rows o1 o2 snapshot1 snapshot2 :
  (∀ sheet, sheet ∈ lookup_sheets →
     ∀ r, r ∈ sheet_rows (load_snapshot snapshot1) sheet
          ↔ r ∈ sheet_rows (load_snapshot snapshot2) sheet) →
  load_lookups o1 snapshot1 = load_lookups o2 snapshot2.
Proof.
  intros Hrows. unfold load_lookups. cbv zeta.
  f_equal; apply extract_column_same_rows, Hrows; unfold lookup_sheets;
    rewrite !elem_of_cons; tauto.
Qed.

Lemma sheet_rows_snapshot_of sh sheet :
  sheet_rows (load_snapshot (snapshot_of sh)) sheet
  = match sh !! sheet with
    | Some (SheetDict (Some rows)) => rows
    | _ => []
    end.
Proof.
  unfold sheet_rows, load_snapshot, snapshot_of. cbn.
  rewrite lookup_omap. by destruct (sh !! sheet) as [[[?|]|]|].
Qed.

(** X11.  Only the set of rows of a sheet matters to the lookup tables:
    two snapshots that differ in the order of the rows of a sheet, or in
    how often a row is repeated, load the same tables. *)
Theorem load_lookups_rows_as_set (o1 o2 : set_iteration)
    (sh : gmap pystr sheet_json) (sheet : pystr) (rows1 rows2 : list row) :
  (∀ r, r ∈ rows1 ↔ r ∈ rows2) →
  load_lookups o1 (snapshot_of (<[sheet := SheetDict (Some rows1)]> sh))
  = load_lookups o2 (snapshot_of (<[sheet := SheetDict (Some rows2)]> sh)).
Proof.
  intros Hrows. apply load_lookups_same_rows. intros sheet' _ r.
  rewrite !sheet_rows_snapshot_of.
  destruct (decide (sheet = sheet')) as [->|Hne].
  - by rewrite !lookup_insert_eq.
  - by rewrite !lookup_insert_ne.
Qed.

(** X12.  A sheet that is not one of the five lookup sheets does not
    show in the lookup tables, whatever it holds. *)
Theorem load_lookups_ignores_other_sheets (o : set_iteration)
    (sh : gmap pystr sheet_json) (sheet : pystr) (content : sheet_json) :
  sheet ∉ lookup_sheets →
  load_lookups o (snapshot_of (<[sheet := content]> sh))
  = load_lookups o (snapshot_of sh).
Proof.
  intros Hnot. apply load_lookups_same_rows. intros sheet' Hin r.
  rewrite !sheet_rows_snapshot_of, lookup_insert_ne; [done|].
  by intros ->.
Qed.

(** ** Orchestration *)

Section MorePipelineProperties.

Variable writer_outcome : list Recipe → pystr → pystr → option pystr.

Lemma run_pipeline_ok o recipes snapshot template_path output_path log :
  Forall (passes (load_lookups o snapshot)) recipes →
  run_pipeline writer_outcome o recipes snapshot template_path output_path log
  = write_recipes_to_template writer_outcome recipes template_path
      output_path log.
Proof.
  intros Hall. unfold run_pipeline, bind. by rewrite for_each_all_pass.
Qed.

Lemma run_pipeline_ko o recipes snapshot template_path output_path log :
  ¬ Forall (passes (load_lookups o snapshot)) recipes →
  ∃ e, run_pipeline writer_outcome o recipes snapshot template_path
         output_path log = (inl e, log).
Proof.
  intros (pre & r & rest & -> & Hpre & Hr)%first_failing_recipe.
  destruct (not_passes_failure _ _ Hr) as (e & He). exists e.
  unfold run_pipeline, bind.
  by rewrite (for_each_first_failure _ _ _ _ e).
Qed.

Lemma write_recipes_log recipes template_path output_path log :
  (write_recipes_to_template writer_outcome recipes template_path
     output_path log).2
  = log ++ [WriteRecipes recipes template_path output_path].
Proof.
  unfold write_recipes_to_template. by destruct (writer_outcome _ _ _).
Qed.

Lemma run_pipeline_writes_iff o recipes snapshot template_path output_path
    log :
  (run_pipeline writer_outcome o recipes snapshot template_path output_path
     log).2
  = log ++ [WriteRecipes recipes template_path output_path]
  ↔ Forall (passes (load_lookups o snapshot)) recipes.
Proof.
  split.
  - intros Hlog.
    destruct (decide (Forall (passes (load_lookups o snapshot)) recipes))
      as [|Hnot]; [done|].
    destruct (run_pipeline_ko o recipes snapshot template_path output_path
                log Hnot) as (e & E).
    rewrite E in Hlog. cbn in Hlog. apply (f_equal length) in Hlog.
    rewrite length_app in Hlog. cbn in Hlog. lia.
  - intros Hall. by rewrite run_pipeline_ok, write_recipes_log.
Qed.

(** X9.  When the snapshot has no unit sheet, no batch with a recipe in
    it is ever written: the run raises and the writer is not called. *)
Theorem no_unit_sheet_blocks_every_batch (o : set_iteration)
    (recipes : list Recipe) (snapshot : snapshot_json)
    (template_path output_path : pystr) (log : list event) :
  sheet_absent snapshot SHEET_UNITS →
  recipes ≠ [] →
  ∃ e, run_pipeline writer_outcome o recipes snapshot template_path
         output_path log = (inl e, log).
Proof.
  intros Habs Hne. apply run_pipeline_ko.
  destruct recipes as [|r rest]; [done|].
  intros [Hr _]%Forall_cons. destruct Hr as (Hs & Hn & _).
  apply validate_recipe_nil in Hs. destruct Hs as (_ & _ & _ & _ & _ & Hi & _).
  apply normalize_recipe_nil in Hn. destruct Hn as (Hu & _).
  destruct (lookup_column_ok o snapshot SHEET_UNITS HEADER_UNITS)
    as (_ & _ & _ & _ & Hempty & _).
  change (_unique_sorted _ _) with (units (load_lookups o snapshot)) in Hempty.
  rewrite (Hempty Habs) in Hu.
  destruct (ingredients r) as [|i ings]; [done|].
  apply Forall_cons in Hu as [Hu _]. by apply elem_of_nil in Hu.
Qed.

(** X13.  The outcome of a run does not depend on the order in which
    the sets built while loading the lookups are walked. *)
Theorem run_pipeline_order_free (o1 o2 : set_iteration)
    (recipes : list Recipe) (snapshot : snapshot_json)
    (template_path output_path : pystr) (log : list event) :
  run_pipeline writer_outcome o1 recipes snapshot template_path output_path
    log
  = run_pipeline writer_outcome o2 recipes snapshot template_path output_path
      log.
Proof.
  unfold run_pipeline.
  by rewrite (load_lookups_same_rows o1 o2 snapshot snapshot).
Qed.

(** X14.  A batch reaches the writer exactly when each of its two halves
    would on its own: joining batches that pass gives a batch that passes,
    and a batch that passes can be split anywhere. *)
Theorem run_pipeline_batch_split (o : set_iteration)
    (batch1 batch2 : list Recipe) (snapshot : snapshot_json)
    (template_path output_path : pystr) (log : list event) :
  let run := λ recipes,
    (run_pipeline writer_outcome o recipes snapshot template_path
       output_path log).2 in
  run (batch1 ++ batch2)
  = log ++ [WriteRecipes (batch1 ++ batch2) template_path output_path]
  ↔ run batch1 = log ++ [WriteRecipes batch1 template_path output_path]
    ∧ run batch2 = log ++ [WriteRecipes batch2 template_path output_path].
Proof. cbv zeta. rewrite !run_pipeline_writes_iff. apply Forall_app. Qed.

(** X15.  An empty batch is not an error: the writer is called with the
    empty list. *)
Theorem run_pipeline_empty_batch (o : set_iteration)
    (snapshot : snapshot_json) (template_path output_path : pystr)
    (log : list event) :
  run_pipeline writer_outcome o [] snapshot template_path output_path log
  = write_recipes_to_template writer_outcome [] template_path output_path
      log
  ∧ (run_pipeline writer_outcome o [] snapshot template_path output_path
       log).2
    = log ++ [WriteRecipes [] template_path output_path].
Proof.
  split; [done|]. apply write_recipes_log.
Qed.

End MorePipelineProperties.

(** ** The overview text of a recipe *)

Import excel_writer.

Lemma truthy_app_r {A} (a b : list A) :
  truthy b = true → truthy (a ++ b) = true.
Proof. destruct a, b; done. Qed.

Lemma truthy_join sep items :
  Forall (λ x, truthy x = true) items →
  truthy (join sep items) = truthy items.
Proof.
  destruct 1 as [|x [|y rest] Hx _]; cbn; try done.
  by destruct x.
Qed.

Lemma truthy_items_all items :
  Forall (λ x, truthy x = true) (truthy_items items).
Proof.
  unfold truthy_items. apply Forall_forall. intros x.
  rewrite list_elem_of_omap. intros ([s|] & _ & Hx); [|done].
  destruct (truthy s) eqn:E; [|done]. by injection Hx as <-.
Qed.

Lemma truthy_truthy_items items :
  truthy (truthy_items items)
  = existsb (λ item, match item with Some s => truthy s | None => false end)
      items.
Proof.
  induction items as [|[s|] items IH]; cbn; try done.
  by destruct (truthy s).
Qed.

Lemma truthy_join_cons sep x rest :
  truthy x = true → truthy (join sep (x :: rest)) = true.
Proof. destruct x, rest; done. Qed.

Lemma truthy_details time_text temp_text speed_text :
  truthy (join (py ", ")
            (truthy_items [Some time_text; temp_text; speed_text]))
  = truthy time_text
    || match temp_text with Some s => truthy s | None => false end
    || match speed_text with Some s => truthy s | None => false end.
Proof.
  rewrite truthy_join by apply truthy_items_all.
  rewrite truthy_truthy_items. cbn [existsb].
  by rewrite orb_false_r, orb_assoc.
Qed.

Lemma truthy_seconds_text sec :
  truthy (join (py " ")
            (when (negb (sec =? 0)) (str_of_int sec ++ py " segundos")))
  = negb (sec =? 0).
Proof.
  destruct (sec =? 0); [done|]. cbn [negb when].
  by apply truthy_join_cons, truthy_app_r.
Qed.

(** Whether a step without description gets a sentence. *)
Lemma controls_sentence_nil step :
  controls_sentence step = []
  ↔ minutes step = None ∧ (seconds step = None ∨ seconds step = Some 0)
    ∧ temperature step = None ∧ speed step = None.
Proof.
  unfold controls_sentence.
  destruct (temperature step) as [t|], (speed step) as [v|],
    (minutes step) as [m|], (seconds step) as [sec|];
    cbn [is_not_None negb andb app].
  16: { split; [intros _; repeat split; auto | done]. }
  all: rewrite when_nil, truthy_details.
  all: rewrite ?(truthy_app_r (str_of_int t)) by done.
  all: rewrite ?orb_true_r.
  all: try (split; [done | intuition congruence]).
  all: rewrite ?orb_false_r.
  all: rewrite ?truthy_join_cons by (by apply truthy_app_r).
  all: try (split; [done | intuition congruence]).
  rewrite truthy_seconds_text.
  destruct (Z.eqb_spec sec 0) as [->|Hne]; cbn.
  - split; [intros _; repeat split; auto | done].
  - split; [done|]. intros (_ & [?|?] & _); congruence.
Qed.

Lemma overview_step_blank step :
  blank (description step) → overview_step step = controls_sentence step.
Proof.
  unfold overview_step, blank.
  destruct (description step) as [d|]; [|done].
  intros ->. by rewrite andb_false_r.
Qed.

Lemma overview_step_described step d :
  description step = Some d → strip d ≠ [] →
  overview_step step = [strip d].
Proof.
  unfold overview_step. intros -> Hd.
  apply truthy_true in Hd as Hd'. rewrite Hd'.
  assert (truthy d = true) as ->; [|done].
  apply truthy_true. by intros ->.
Qed.

Lemma overview_step_nil step :
  overview_step step = []
  ↔ blank (description step) ∧ minutes step = None
    ∧ (seconds step = None ∨ seconds step = Some 0)
    ∧ temperature step = None ∧ speed step = None.
Proof.
  destruct (decide (blank (description step))) as [Hb|Hb].
  - rewrite overview_step_blank, controls_sentence_nil by done. tauto.
  - split; [|tauto]. unfold blank in Hb.
    destruct (description step) as [d|] eqn:E; [|done].
    by rewrite (overview_step_described _ d).
Qed.

Lemma overview_step_valid step :
  step_ok step → length (overview_step step) = 1%nat.
Proof.
  intros [(_ & Hb & _)|(_ & Hb & _ & Hs)].
  - unfold blank in Hb. destruct (description step) as [d|] eqn:E; [|done].
    by rewrite (overview_step_described _ d).
  - rewrite overview_step_blank by done.
    destruct (controls_sentence step) as [|x [|y l]] eqn:E; try done.
    + apply controls_sentence_nil in E. tauto.
    + unfold controls_sentence, when in E.
      repeat case_match; discriminate E.
Qed.

Lemma validate_steps_nil steps :
  validate_steps steps = [] ↔ Forall step_ok steps.
Proof.
  induction steps as [|s steps IH].
  - split; [by constructor|done].
  - rewrite validate_steps_cons, app_nil, Forall_cons, IH.
    by rewrite validate_step_nil.
Qed.

(** X16.  For steps that clear the rule validator the overview has one
    sentence per step after the opening sentence about the accessory:
    no valid step is passed over in silence. *)
Theorem overview_covers_every_valid_step (steps : list Step) :
  validate_steps steps = [] →
  length (overview_sentences steps) = S (length steps).
Proof.
  rewrite validate_steps_nil. unfold overview_sentences.
  rewrite accumulate_flat. cbn [app length]. intros Hall. f_equal.
  induction Hall as [|s steps Hs _ IH]; [done|].
  cbn. rewrite length_app, IH, overview_step_valid by done. done.
Qed.

(** X17.  A step adds nothing to the overview exactly when its
    description is absent or blank and it has no minutes, no temperature,
    no speed, and no seconds or zero seconds; its direction never
    counts. *)
Theorem overview_step_silent_iff (step : Step) :
  overview_sentences [step] = [accessory_sentence]
  ↔ blank (description step) ∧ minutes step = None
    ∧ (seconds step = None ∨ seconds step = Some 0)
    ∧ temperature step = None ∧ speed step = None.
Proof.
  unfold overview_sentences. rewrite accumulate_singleton.
  rewrite <- overview_step_nil. cbn [app].
  split; [by intros [= ->]|by intros ->].
Qed.

(** X18.  The overview is made from the description, temperature,
    speed, minutes and seconds of the steps only: step numbers, modes and
    directions do not show in it. *)
Theorem build_overview_fields (steps1 steps2 : list Step) :
  Forall2 same_overview_fields steps1 steps2 →
  build_overview steps1 = build_overview steps2.
Proof.
  intros Hsame. unfold build_overview, overview_sentences. do 2 f_equal.
  rewrite !accumulate_flat.
  induction Hsame as [|s1 s2 l1 l2 (Hd & Ht & Hv & Hm & Hs) _ IH]; [done|].
  cbn. rewrite IH. f_equal.
  unfold overview_step, controls_sentence. by rewrite Hd, Ht, Hv, Hm, Hs.
Qed.

(** ** The rows handed to the sheets *)

Lemma accumulate_singleton_body {A B} (f : A → B) (xs : list A) :
  accumulate (λ x, [f x]) xs = f <$> xs.
Proof.
  rewrite accumulate_flat. induction xs as [|x xs IH]; [done|].
  cbn. by rewrite IH.
Qed.

Lemma length_accumulate {A E} (body : A → list E) (xs : list A) :
  length (accumulate body xs) = sum_list (length ∘ body <$> xs).
Proof.
  rewrite accumulate_flat. induction xs as [|x xs IH]; [done|].
  cbn. by rewrite length_app, IH.
Qed.

(** X19.  The recipe sheet gets one row per recipe, the ingredient
    sheet one row per ingredient and the step sheet one row per step, all
    in the order of the batch, whatever the recipes hold. *)
Theorem row_counts (recipes : list Recipe) :
  length (recipe_list_rows recipes) = length recipes
  ∧ length (ingredient_rows recipes)
    = sum_list (length ∘ ingredients <$> recipes)
  ∧ length (step_rows recipes) = sum_list (length ∘ steps <$> recipes)
  ∧ ∀ more,
      recipe_list_rows (recipes ++ more)
      = recipe_list_rows recipes ++ recipe_list_rows more
      ∧ ingredient_rows (recipes ++ more)
        = ingredient_rows recipes ++ ingredient_rows more
      ∧ step_rows (recipes ++ more) = step_rows recipes ++ step_rows more.
Proof.
  split; [|split; [|split]].
  - unfold recipe_list_rows.
    by rewrite accumulate_singleton_body, length_fmap.
  - unfold ingredient_rows. rewrite length_accumulate. f_equal.
    apply list_fmap_ext. intros _ r _. cbn.
    by rewrite accumulate_singleton_body, length_fmap.
  - unfold step_rows. rewrite length_accumulate. f_equal.
    apply list_fmap_ext. intros _ r _. cbn.
    by rewrite accumulate_singleton_body, length_fmap.
  - intros more. unfold recipe_list_rows, ingredient_rows, step_rows.
    by rewrite !accumulate_app.
Qed.

Lemma of_opt_int_inj o1 o2 : of_opt_int o1 = of_opt_int o2 → o1 = o2.
Proof. destruct o1, o2; cbn; congruence. Qed.

Lemma of_opt_str_inj o1 o2 : of_opt_str o1 = of_opt_str o2 → o1 = o2.
Proof. destruct o1, o2; cbn; congruence. Qed.

(** X20.  The row of a step keeps all eight fields of the step: two
    steps of a recipe with the same row are the same step. *)
Theorem step_row_keeps_every_field (recipe : Recipe) (s1 s2 : Step) :
  step_row recipe s1 = step_row recipe s2 → s1 = s2.
Proof.
  intros E.
  assert (G : ∀ key, step_row recipe s1 !! key = step_row recipe s2 !! key)
    by (by rewrite E).
  pose proof (G (py "step_no")) as H1.
  pose proof (G (py "mode")) as H2.
  pose proof (G (py "description")) as H3.
  pose proof (G (py "temperature")) as H4.
  pose proof (G (py "direction")) as H5.
  pose proof (G (py "speed")) as H6.
  pose proof (G (py "minutes")) as H7.
  pose proof (G (py "seconds")) as H8.
  clear G E. vm_compute in H1, H2, H3, H4, H5, H6, H7, H8.
  destruct s1, s2; cbn in *.
  injection H1 as ->. injection H2 as ->.
  injection H3 as ->%of_opt_str_inj. injection H4 as ->%of_opt_int_inj.
  injection H5 as ->%of_opt_str_inj. injection H6 as ->%of_opt_int_inj.
  injection H7 as ->%of_opt_int_inj. injection H8 as ->%of_opt_int_inj.
  done.
Qed.

(** ** Printing integers *)

Lemma py_inj s1 s2 : py s1 = py s2 → s1 = s2.
Proof.
  unfold py. intros E.
  rewrite <- (string_of_list_ascii_of_string s1),
    <- (string_of_list_ascii_of_string s2). f_equal.
  revert E. generalize (list_ascii_of_string s1) (list_ascii_of_string s2).
  induction l as [|a l IH]; intros [|b l']; cbn; try done.
  intros [= Hab Hl]. f_equal; [|by apply IH].
  by rewrite <- (ascii_N_embedding a), <- (ascii_N_embedding b), Hab.
Qed.

Lemma to_int_proper n :
  Z.to_int n ≠ Decimal.Pos Decimal.Nil ∧ Z.to_int n ≠ Decimal.Neg Decimal.Nil.
Proof.
  destruct n as [|p|p]; cbn; split; try done.
  - intros [= E]. by apply DecimalPos.Unsigned.to_uint_nonnil in E.
  - intros [= E]. by apply DecimalPos.Unsigned.to_uint_nonnil in E.
Qed.

Lemma str_of_int_inj n1 n2 : str_of_int n1 = str_of_int n2 → n1 = n2.
Proof.
  unfold str_of_int. intros E%py_inj.
  apply DecimalZ.to_int_inj.
  destruct (to_int_proper n1) as [? ?], (to_int_proper n2) as [? ?].
  apply (f_equal NilZero.int_of_string) in E.
  rewrite !NilZero.isi in E by done. by injection E.
Qed.

(** ** Cells and rows of a sheet *)

Section WriterProperties.

Variable py_int : pystr → option Z.
Variable float_str : Q → pystr.

Lemma cell_value_make_cell col row_num value shared :
  cell_value py_int (make_cell float_str col row_num value) shared
  = match value with
    | VNone => None
    | _ => Some (str_of_obj float_str value)
    end.
Proof. destruct value; vm_compute; reflexivity. Qed.

(** X21.  A cell made by [make_cell] reads back through the writer's
    [cell_value] as the printed value it was made from, whatever the
    table of shared strings holds; a cell made from [None] reads back as
    [None]. *)
Theorem make_cell_reads_back (col : pystr) (row_num : Z) (value : pyobj)
    (shared : list pystr) :
  cell_value py_int (make_cell float_str col row_num value) shared
  = match value with
    | VNone => None
    | _ => Some (str_of_obj float_str value)
    end
  ∧ attrib (make_cell float_str col row_num value) !! py "r"
    = Some (col ++ str_of_int row_num).
Proof.
  split; [apply cell_value_make_cell|].
  destruct value; vm_compute; reflexivity.
Qed.



Lemma update_first_spec (T : pystr) (f : element → element) l :
  (∀ e, tag (f e) = tag e) →
  match update_first (λ c, bool_decide (tag c = T)) f l with
  | Some l' =>
      ∃ e, head (filter (λ c, tag c = T) l) = Some e
           ∧ head (filter (λ c, tag c = T) l') = Some (f e)
  | None => filter (λ c, tag c = T) l = []
  end.
Proof.
  intros Hf. induction l as [|e l IH]; [done|].
  cbn [update_first]. rewrite filter_cons. case_bool_decide as He.
  - rewrite decide_True by done. exists e. split; [done|].
    by rewrite filter_cons_True by (by rewrite Hf).
  - rewrite decide_False by done.
    destruct (update_first _ f l) as [l'|]; cbn; [|done].
    destruct IH as (e' & ? & ?). exists e'. split; [done|].
    by rewrite decide_False.
Qed.

Lemma update_first_fixed (p : element → bool) (f : element → element) l l' :
  (∀ e, p e = true → p (f e) = true ∧ f (f e) = f e) →
  update_first p f l = Some l' → update_first p f l' = Some l'.
Proof.
  intros Hf. revert l'. induction l as [|e l IH]; intros l'; [done|].
  cbn [update_first]. destruct (p e) eqn:He.
  - intros [= <-]. cbn [update_first].
    destruct (Hf e He) as [-> ->]. done.
  - destruct (update_first p f l) as [l0|]; [|done]. cbn.
    intros [= <-]. cbn [update_first]. by rewrite He, (IH l0).
Qed.

Lemma header_rows_filter (l : list element) :
  filter (λ c, tag c = qname "row")
    (filter (λ c, ¬ (tag c = qname "row" ∧ ¬ is_header_row c)) l)
  = filter is_header_row (filter (λ c, tag c = qname "row") l).
Proof.
  rewrite !list_filter_filter. apply list_filter_iff. intros c.
  destruct (decide (is_header_row c)); tauto.
Qed.

Lemma data_rows_clear sheet :
  data_rows (clear_data_rows sheet)
  = filter is_header_row (data_rows sheet).
Proof.
  unfold data_rows, clear_data_rows, find, findall.
  pose proof (update_first_spec (qname "sheetData")
    (λ sheet_data,
       with_children sheet_data
         (filter (λ c, ¬ (tag c = qname "row" ∧ ¬ is_header_row c))
                 (children sheet_data)))
    (children sheet) (λ _, eq_refl)) as Hspec.
  destruct (update_first _ _ (children sheet)) as [l'|].
  - destruct Hspec as (e & -> & Hl'). cbn [children with_children].
    rewrite Hl'. cbn [children with_children]. apply header_rows_filter.
  - by rewrite Hspec.
Qed.

(** X23.  [clear_data_rows] leaves in the sheet data the rows numbered
    ["1"] and removes every other row; it changes nothing else of the
    sheet element itself, and clearing twice is clearing once. *)
Theorem clear_data_rows_keeps_header (sheet : element) :
  data_rows (clear_data_rows sheet) = filter is_header_row (data_rows sheet)
  ∧ tag (clear_data_rows sheet) = tag sheet
  ∧ attrib (clear_data_rows sheet) = attrib sheet
  ∧ text (clear_data_rows sheet) = text sheet
  ∧ clear_data_rows (clear_data_rows sheet) = clear_data_rows sheet.
Proof.
  split; [apply data_rows_clear|].
  unfold clear_data_rows.
  destruct (update_first _ _ (children sheet)) as [l'|] eqn:E.
  - repeat split. cbn [children with_children tag attrib text].
    erewrite update_first_fixed; [done| |exact E].
    intros e He. split; [done|]. unfold with_children. cbn. f_equal.
    rewrite list_filter_filter. apply list_filter_iff. tauto.
  - repeat split. by rewrite E.
Qed.

Lemma new_rows_tag header_to_col rows headers :
  Forall (λ r, tag r = qname "row")
    (new_rows float_str header_to_col rows headers).
Proof.
  unfold new_rows. apply Forall_forall. intros r.
  rewrite elem_of_lookup_imap. by intros (i & x & -> & _).
Qed.

Lemma filter_Forall_id {A} (P : A → Prop) `{∀ x, Decision (P x)} l :
  Forall P l → filter P l = l.
Proof.
  induction 1 as [|x l Hx _ IH]; [done|].
  by rewrite filter_cons_True, IH.
Qed.

Lemma data_rows_append sheet header_to_col rows headers :
  data_rows (append_rows float_str sheet header_to_col rows headers)
  = data_rows sheet ++ new_rows float_str header_to_col rows headers.
Proof.
  unfold data_rows, append_rows, find, findall. cbv zeta.
  pose proof (update_first_spec (qname "sheetData")
    (λ sheet_data,
       with_children sheet_data
         (children sheet_data
            ++ new_rows float_str header_to_col rows headers))
    (children sheet) (λ _, eq_refl)) as Hspec.
  destruct (update_first _ _ (children sheet)) as [l'|].
  - destruct Hspec as (e & -> & Hl'). cbn [children with_children].
    rewrite Hl'. cbn [children with_children].
    by rewrite filter_app, (filter_Forall_id _ (new_rows _ _ _ _))
      by apply new_rows_tag.
  - rewrite Hspec. cbn [children with_children].
    rewrite filter_app, Hspec, filter_cons_True by done.
    cbn [app head children].
    by rewrite (filter_Forall_id _ (new_rows _ _ _ _)) by apply new_rows_tag.
Qed.

Lemma new_rows_numbers header_to_col rows headers :
  (λ r, attrib r !! py "r")
    <$> new_rows float_str header_to_col rows headers
  = (λ k, Some (str_of_int (2 + Z.of_nat k))) <$> seq 0 (length rows).
Proof.
  unfold new_rows. apply list_eq. intros i.
  rewrite !list_lookup_fmap, list_lookup_imap.
  destruct (rows !! i) as [row_data|] eqn:E; cbn.
  - rewrite lookup_seq_lt by (by eapply lookup_lt_Some).
    by rewrite lookup_insert_eq.
  - by rewrite lookup_seq_ge by (by apply lookup_ge_None).
Qed.

(** X24.  Writing a sheet, that is clearing it and appending the rows,
    leaves as its data rows the rows numbered ["1"] of the template
    followed by one new row per row of data, numbered 2, 3, ... in
    order; the numbers of the new rows are pairwise different and none of
    them is ["1"]. *)
Theorem written_sheet_rows (sheet : element)
    (header_to_col : gmap pystr pystr) (rows : list (gmap pystr pyobj))
    (headers : list (pystr * pystr)) :
  let added := new_rows float_str header_to_col rows headers in
  data_rows
    (append_rows float_str (clear_data_rows sheet) header_to_col rows headers)
  = filter is_header_row (data_rows sheet) ++ added
  ∧ length added = length rows
  ∧ (λ r, attrib r !! py "r") <$> added
    = (λ k, Some (str_of_int (2 + Z.of_nat k))) <$> seq 0 (length rows)
  ∧ NoDup ((λ r, attrib r !! py "r") <$> added)
  ∧ Forall (λ r, ¬ is_header_row r) added.
Proof.
  cbv zeta. split; [by rewrite data_rows_append, data_rows_clear|].
  split; [unfold new_rows; apply length_imap|].
  split; [apply new_rows_numbers|]. split.
  - rewrite new_rows_numbers. apply NoDup_fmap_2; [|apply NoDup_seq].
    intros k1 k2 [= E%str_of_int_inj]. lia.
  - apply Forall_forall. intros r Hr. unfold is_header_row.
    apply (list_elem_of_fmap_2 (λ r, attrib r !! py "r")) in Hr.
    rewrite new_rows_numbers in Hr.
    apply list_elem_of_fmap in Hr as (k & -> & _).
    intros [= E]. change (py "1") with (str_of_int 1) in E.
    apply str_of_int_inj in E. lia.
Qed.

End WriterProperties.

Section RowCells.

Variable py_int : pystr → option Z.
Variable float_str : Q → pystr.

Lemma make_cell_ref col row_num value :
  attrib (make_cell float_str col row_num value) !! py "r"
  = Some (col ++ str_of_int row_num).
Proof. destruct value; vm_compute; reflexivity. Qed.

(** X25.  Reading back the cells of an appended row gives, in the order
    of [headers], one cell for every header that the template has a
    non-empty column for and whose field is present and not [None]: its
    reference is the column followed by the row number and its value the
    printed field.  The other headers leave no cell, not even an empty
    one. *)
Theorem row_cells_read_back (header_to_col : gmap pystr pystr)
    (headers : list (pystr * pystr)) (row_num : Z)
    (row_data : gmap pystr pyobj) (shared : list pystr) :
  (λ c, (attrib c !! py "r", cell_value py_int c shared))
    <$> row_cells float_str header_to_col headers row_num row_data
  = omap (λ '(header, key),
            match header_to_col !! header, row_data !! key with
            | Some (ch :: col), Some (VInt _ as value)
            | Some (ch :: col), Some (VFloat _ as value)
            | Some (ch :: col), Some (VStr _ as value) =>
                Some (Some ((ch :: col) ++ str_of_int row_num),
                      Some (str_of_obj float_str value))
            | _, _ => None
            end) headers.
Proof.
  unfold row_cells. rewrite accumulate_flat.
  induction headers as [|[header key] headers IH]; [done|].
  cbn [mbind list_bind omap list_omap]. rewrite fmap_app, IH.
  destruct (header_to_col !! header) as [[|ch col]|]; [done| |done].
  destruct (row_data !! key) as [[]|]; cbn [default negb truthy];
    try done.
  all: cbn [fmap list_fmap app].
  all: by rewrite make_cell_ref, cell_value_make_cell.
Qed.

End RowCells.

(** ** Column letters *)

Import schema_snapshot.

Lemma col_index_snoc col ch :
  col_index (col ++ [ch]) = col_index col * 26 + (Z.of_N ch - 64).
Proof. unfold col_index. by rewrite foldl_app. Qed.

Lemma col_index_bounds col :
  column_name col →
  26 ^ Z.of_nat (length col) - 1 ≤ 25 * col_index col
  ∧ 25 * col_index col ≤ 26 ^ (Z.of_nat (length col) + 1) - 26.
Proof.
  induction col as [|ch col IH] using rev_ind; [done|].
  intros [Hcol Hch]%Forall_app. apply Forall_inv in Hch.
  specialize (IH Hcol).
  rewrite col_index_snoc, length_app, Nat2Z.inj_add. cbn [length].
  rewrite !Z.pow_add_r in * by lia. change (26 ^ 1) with 26 in *.
  change (26 ^ Z.of_nat 1) with 26. lia.
Qed.

Lemma col_index_inj col1 col2 :
  column_name col1 → column_name col2 →
  col_index col1 = col_index col2 → col1 = col2.
Proof.
  revert col2. induction col1 as [|c1 col1 IH] using rev_ind;
    intros col2 H1 H2 E.
  - destruct col2 as [|c2 col2] using rev_ind; [done|].
    pose proof (col_index_bounds _ H2) as [Hlo _].
    rewrite <- E, length_app, Nat2Z.inj_add, Z.pow_add_r in Hlo by lia.
    cbn in Hlo. pose proof (Z.pow_pos_nonneg 26 (Z.of_nat (length col2))).
    lia.
  - destruct col2 as [|c2 col2 _] using rev_ind.
    + pose proof (col_index_bounds _ H1) as [Hlo _].
      rewrite E, length_app, Nat2Z.inj_add, Z.pow_add_r in Hlo by lia.
      cbn in Hlo. pose proof (Z.pow_pos_nonneg 26 (Z.of_nat (length col1))).
      lia.
    + apply Forall_app in H1 as [H1 Hc1]. apply Forall_inv in Hc1.
      apply Forall_app in H2 as [H2 Hc2]. apply Forall_inv in Hc2.
      rewrite !col_index_snoc in E.
      assert (col_index col1 = col_index col2 ∧ c1 = c2) as [E' ->] by lia.
      by rewrite (IH col2).
Qed.

Lemma col_index_cons ch col :
  col_index (ch :: col)
  = (Z.of_N ch - 64) * 26 ^ Z.of_nat (length col) + col_index col.
Proof.
  revert ch. induction col as [|c col IH] using rev_ind; intros ch.
  - cbn. lia.
  - rewrite app_comm_cons, !col_index_snoc, IH, length_app, Nat2Z.inj_add.
    rewrite Z.pow_add_r by lia. cbn [length]. change (26 ^ Z.of_nat 1) with 26.
    lia.
Qed.

Lemma col_index_lex col1 col2 :
  column_name col1 → column_name col2 →
  length col1 = length col2 → PyStr.le col1 col2 →
  col_index col1 ≤ col_index col2.
Proof.
  unfold PyStr.le. revert col2.
  induction col1 as [|c1 col1 IH]; intros [|c2 col2] H1 H2 Hlen Hle;
    try done.
  apply Forall_cons in H1 as [Hc1 H1]. apply Forall_cons in H2 as [Hc2 H2].
  injection Hlen as Hlen. cbn in Hle.
  rewrite !col_index_cons, <- Hlen.
  pose proof (col_index_bounds _ H1) as [_ Hhi].
  pose proof (col_index_bounds _ H2) as [Hlo _].
  rewrite <- Hlen in Hlo. rewrite Z.pow_add_r in Hhi by lia.
  change (26 ^ 1) with 26 in Hhi.
  pose proof (Z.pow_pos_nonneg 26 (Z.of_nat (length col1))).
  destruct (N.ltb_spec c1 c2).
  - nia.
  - destruct (N.ltb_spec c2 c1); [done|].
    assert (c1 = c2) as -> by lia.
    specialize (IH col2 H1 H2 Hlen Hle). lia.
Qed.

(** X26.  On column names made of the letters A to Z, [col_index] is the
    position of the column in a spreadsheet: different names have
    different indices, a shorter name comes before a longer one, and names
    of the same length are ordered as strings. *)
Theorem col_index_spreadsheet_order (col1 col2 : pystr) :
  column_name col1 → column_name col2 →
  (col_index col1 = col_index col2 → col1 = col2)
  ∧ ((length col1 < length col2)%nat → col_index col1 < col_index col2)
  ∧ (length col1 = length col2 → PyStr.le col1 col2 →
       col_index col1 ≤ col_index col2).
Proof.
  intros H1 H2. split; [by apply col_index_inj|].
  split; [|by apply col_index_lex].
  intros Hlen.
  pose proof (col_index_bounds _ H1) as [_ Hhi].
  pose proof (col_index_bounds _ H2) as [Hlo _].
  assert (26 ^ (Z.of_nat (length col1) + 1) ≤ 26 ^ Z.of_nat (length col2))
    by (apply Z.pow_le_mono_r; lia).
  lia.
Qed.

(** ** What the writer may rely on *)

Section WriterInput.

Variable writer_outcome : list Recipe → pystr → pystr → option pystr.

(** X27.  Whenever a run calls the writer, every recipe it hands over
    is sound: supported language and type, positive number and servings,
    a name that is not blank, ingredients whose units are all listed,
    and steps whose modes are all listed and which all satisfy the rules
    of their mode. *)
Theorem written_recipes_are_valid (o : set_iteration)
    (recipes : list Recipe) (snapshot : snapshot_json)
    (template_path output_path : pystr) (log : list event) :
  (run_pipeline writer_outcome o recipes snapshot template_path output_path
     log).2
  = log ++ [WriteRecipes recipes template_path output_path] →
  Forall (λ r,
            schema_ok r
            ∧ Forall (λ i, unit i ∈ units (load_lookups o snapshot))
                (ingredients r)
            ∧ Forall (λ s, mode s ∈ working_modes (load_lookups o snapshot)
                           ∧ step_ok s) (steps r))
    recipes.
Proof.
  rewrite run_pipeline_writes_iff. intros Hall.
  eapply Forall_impl; [exact Hall|]. cbv beta.
  intros r (Hs%validate_recipe_nil & Hn%normalize_recipe_nil
            & Hr%validate_steps_nil).
  destruct Hn as (Hu & Hm & _). split; [done|]. split; [done|].
  rewrite Forall_forall in Hm, Hr. apply Forall_forall. intros s Hin.
  split; [by apply Hm | by apply Hr].
Qed.

End WriterInput.

(** ** The further theorems at concrete inputs *)

Lemma validate_recipe_reads_meta_only_witness :
  validate_recipe good_recipe = validate_recipe bad_unit_recipe.
Proof.
  apply (validate_recipe_reads_meta_only good_recipe bad_unit_recipe).
  - reflexivity.
  - split; discriminate.
  - split; discriminate.
Defined.

Lemma adapted_cooking_step_errors_witness :
  validate_steps [chatty_step]
  = [description_should_be_empty chatty_step; time_required chatty_step;
     speed_required chatty_step].
Proof.
  exact (proj1 (adapted_cooking_step_errors chatty_step eq_refl)).
Defined.

Lemma normalized_steps_are_supported_witness :
  Forall (λ s, supported_mode (mode s)
               ∧ unsupported_working_mode s ∉ validate_steps [s])
    [chop; cook].
Proof.
  apply (normalized_steps_are_supported [chop; cook]
           (load_lookups first_seen sample_snapshot)).
  vm_compute. reflexivity.
Defined.

Lemma load_lookups_rows_as_set_witness :
  load_lookups first_seen
    (snapshot_of (<[SHEET_UNITS := SheetDict (Some unit_rows)]> ∅))
  = load_lookups last_seen
      (snapshot_of (<[SHEET_UNITS := SheetDict (Some unit_rows_shuffled)]> ∅)).
Proof.
  apply (load_lookups_rows_as_set first_seen last_seen ∅ SHEET_UNITS
           unit_rows unit_rows_shuffled).
  intros r. unfold unit_rows, unit_rows_shuffled.
  rewrite !elem_of_cons, !elem_of_nil. tauto.
Defined.

Lemma load_lookups_ignores_other_sheets_witness :
  load_lookups first_seen
    (snapshot_of (<[py "Notes" := SheetDict (Some unit_rows)]> ∅))
  = load_lookups first_seen (snapshot_of ∅).
Proof.
  apply (load_lookups_ignores_other_sheets first_seen ∅ (py "Notes")
           (SheetDict (Some unit_rows))).
  unfold lookup_sheets. rewrite !elem_of_cons, elem_of_nil.
  intros [H|[H|[H|[H|[H|[]]]]]]; discriminate H.
Defined.

Lemma no_unit_sheet_blocks_every_batch_witness :
  ∃ e, run_pipeline no_writer_failure first_seen [good_recipe]
         {| sheets := None |} (py "template.xlsx") (py "out.xlsx") []
       = (inl e, []).
Proof.
  apply (no_unit_sheet_blocks_every_batch no_writer_failure first_seen
           [good_recipe] {| sheets := None |}).
  - intros sh H. discriminate H.
  - discriminate.
Defined.

Lemma overview_covers_every_valid_step_witness :
  length (overview_sentences [chop; cook]) = 3%nat.
Proof.
  apply (overview_covers_every_valid_step [chop; cook]). reflexivity.
Defined.

Lemma build_overview_fields_witness :
  build_overview [chop; cook]
  = build_overview [chop_renumbered; cook_renumbered].
Proof.
  apply (build_overview_fields [chop; cook]
           [chop_renumbered; cook_renumbered]).
  repeat constructor.
Defined.

Lemma step_row_keeps_every_field_witness :
  step_row good_recipe chop = step_row good_recipe chop ∧ chop = chop.
Proof.
  split; [reflexivity|].
  apply (step_row_keeps_every_field good_recipe chop chop). reflexivity.
Defined.

Lemma col_index_spreadsheet_order_witness :
  col_index (py "Z") < col_index (py "AA").
Proof.
  apply (col_index_spreadsheet_order (py "Z") (py "AA")).
  - repeat constructor; vm_compute; discriminate.
  - repeat constructor; vm_compute; discriminate.
  - cbn. lia.
Defined.

Lemma written_recipes_are_valid_witness :
  Forall (λ r,
            schema_ok r
            ∧ Forall (λ i, unit i
                           ∈ units (load_lookups first_seen sample_snapshot))
                (ingredients r)
            ∧ Forall (λ s, mode s
                           ∈ working_modes
                               (load_lookups first_seen sample_snapshot)
                           ∧ step_ok s) (steps r))
    [good_recipe].
Proof.
  apply (written_recipes_are_valid no_writer_failure first_seen
           [good_recipe] sample_snapshot (py "template.xlsx")
           (py "out.xlsx") []).
  vm_compute. reflexivity.
Defined.
